(** * Gemini Media Transcriber: encoder, transcription client, orchestration

    A shallow embedding of [services/geminiService.ts] ([fileToBase64],
    [transcribeMedia]), [types.ts] ([AppStatus]) and the event handlers of
    [App.tsx] ([handleFileSelect], [handleTranscribe], [resetApp]), with
    the properties the specification states about them.

    Conventions.
    - A JavaScript string is a sequence of UTF-16 code units.  The
      intermediate [binary] string of the encoder is kept as [list N]
      (its code units), because [btoa] inspects them; base64 text, MIME
      types and messages are [string]s, one character per code unit.
    - A [Uint8Array] is a [list byte].
    - A thrown value ([catch (error: any)]) is known to the code only
      through [error.message] and [JSON.stringify(error)]; [JsError]
      records these two observations for a value on which both succeed,
      and [Thrown] adds the values on which they do not.
    - An [async] function is a computation in the monad [M]: it threads
      the log of outbound requests and of console output, and ends in a
      value (the promise resolves) or in a thrown value (it rejects).
    - Strings have a maximal length, which is the engine's: [Engine]. *)

From Equations Require Import Equations.
From Stdlib Require Import Strings.String Strings.Ascii Strings.Byte.
From Stdlib Require Import List Bool NArith ZArith QArith Lia.
Import ListNotations.

Set Implicit Arguments.

(* ================================================================== *)
(** ** Platform primitives used by the source                          *)
(* ================================================================== *)

Module JS.

Open Scope string_scope.

(** [s.length]. *)
Definition length (s : string) : N := N.of_nat (String.length s).

(** [s.startsWith(p)]. *)
Definition startsWith (s p : string) : bool := String.prefix p s.

(** [s.includes(t)]: [t] occurs in [s] at some position. *)
Fixpoint includes (s t : string) : bool :=
  String.prefix t s ||
  match s with
  | EmptyString => false
  | String _ s' => includes s' t
  end.

(** Truthiness of a possibly absent string: [undefined], [null] and
    the empty string are falsy. *)
Definition truthy (v : option string) : bool :=
  match v with
  | Some (String _ _) => true
  | _ => false
  end.

(** [a || b] where [a] is a possibly absent string. *)
Definition or_else (a : option string) (b : string) : string :=
  match a with
  | Some (String _ _ as s) => s
  | _ => b
  end.

(** A thrown value, as far as the code observes it. *)
Record JsError : Type := mkJsError {
  message : option string;   (* error.message *)
  json : string              (* JSON.stringify(error) *)
}.

(** [new Error(msg)]: an [Error] has no enumerable own property. *)
Definition Error (msg : string) : JsError :=
  {| message := Some msg; json := "{}" |}.

(** What a [catch (error: any)] may receive.  [object e] stands for
    every value on which reading [message] gives a string or nothing
    and which [JSON.stringify] turns into a text: an [Error], a plain
    object, a thrown string or number.  The other constructors are the
    values on which the [catch] of [transcribeMedia] itself fails.
    Left out are values whose properties are accessors with effects,
    whose message is not a string but has an [includes] method of its
    own (an array), and whose serialisation throws. *)
Inductive Thrown : Type :=
| object (e : JsError)
| thrown_null        (* [null]: reading [message] is a TypeError *)
| thrown_undefined   (* [undefined]: reading [message] is a TypeError *)
| no_text            (* no message, and [JSON.stringify] gives [undefined]:
                        a function, a symbol *)
| odd_message.       (* a message that is truthy and not a string: a
                        number, [true], a plain object *)

(** The messages of the TypeErrors the engine raises in these cases,
    in the wording of V8 for the source as written.  Other engines word
    them differently; nothing below depends on the wording except that
    it is not empty. *)
Definition message_of_null : string :=
  "Cannot read properties of null (reading 'message')".
Definition message_of_undefined : string :=
  "Cannot read properties of undefined (reading 'message')".
Definition includes_of_undefined : string :=
  "Cannot read properties of undefined (reading 'includes')".
Definition includes_not_a_function : string :=
  "errorStr.includes is not a function".

(** The engine, as far as strings are concerned: the greatest length a
    string may have, and what [btoa] does when its result would be
    longer: it returns some other text ([Some]), or it throws
    ([None]).  An engine that aborts the process instead is not
    covered: the page runs in a browser. *)
Record Engine : Type := mkEngine {
  maxStringLength : N;
  btoa_overflow : option string
}.

(** Chromium: V8 holds strings of up to 2^29 - 24 code units, and
    [btoa] returns the empty string when the encoded text would be
    longer. *)
Definition Chromium : Engine :=
  {| maxStringLength := 536870888; btoa_overflow := Some EmptyString |}.

(** How a promise settles. *)
Inductive Settled (A : Type) : Type :=
| Resolved (value : A)
| Rejected (reason : JsError).
Arguments Resolved {A} value.
Arguments Rejected {A} reason.

(** [String.fromCharCode(...codes)]: every argument is taken modulo
    2^16 and becomes one code unit. *)
Definition fromCharCode (codes : list N) : list N :=
  map (fun c => c mod 65536)%N codes.

(** [Array.from(chunk)] for a [Uint8Array]. *)
Definition Array_from (chunk : list byte) : list N := map Byte.to_N chunk.

(** [a.subarray(b, e)] for [0 <= b]: both ends are clamped to the
    length of the array, and an end before the begin gives an empty
    view. *)
Definition subarray (a : list byte) (b e : N) : list byte :=
  firstn (N.to_nat (e - b)) (skipn (N.to_nat b) a).

End JS.

(* ================================================================== *)
(** ** Base64 (RFC 4648, section 4), as [btoa] implements it           *)
(* ================================================================== *)

Module Base64.

Open Scope N_scope.

(** Modelled from the spec: [btoa] is a browser builtin and the
    repository has no decoder; the specification asks for base64 with
    padding per standard base64 rules, so the table and the grouping
    below are those of RFC 4648. *)
Definition alphabet : string :=
  "ABCDEFGHIJKLMNOPQRSTUVWXYZabcdefghijklmnopqrstuvwxyz0123456789+/".

Definition pad : ascii := "="%char.

(** The character of a 6-bit value. *)
Definition sextet_char (n : N) : ascii :=
  match String.get (N.to_nat n) alphabet with
  | Some c => c
  | None => pad
  end.

Fixpoint index_from (i : N) (c : ascii) (s : string) : option N :=
  match s with
  | EmptyString => None
  | String d s' => if Ascii.eqb c d then Some i else index_from (i + 1) c s'
  end.

(** The 6-bit value of a character of the alphabet. *)
Definition char_sextet (c : ascii) : option N := index_from 0 c alphabet.

(** Three octets become four characters; a final group of one or two
    octets is completed with zero bits and padded with [=]. *)
Fixpoint encode_groups (l : list N) : string :=
  match l with
  | [] => EmptyString
  | [a] =>
      String (sextet_char (a / 4))
     (String (sextet_char ((a mod 4) * 16))
     (String pad (String pad EmptyString)))
  | [a; b] =>
      String (sextet_char (a / 4))
     (String (sextet_char ((a mod 4) * 16 + b / 16))
     (String (sextet_char ((b mod 16) * 4))
     (String pad EmptyString)))
  | a :: b :: c :: rest =>
      String (sextet_char (a / 4))
     (String (sextet_char ((a mod 4) * 16 + b / 16))
     (String (sextet_char ((b mod 16) * 4 + c / 64))
     (String (sextet_char (c mod 64))
     (encode_groups rest))))
  end.

(** The length of the base64 text of [n] octets. *)
Definition encoded_length (n : N) : N := (n + 2) / 3 * 4.

(** Modelled from the spec: [btoa(data)].  It throws an
    [InvalidCharacterError] ([None]) when [data] holds a code unit
    above 0xFF.  Otherwise it returns the base64 text of the octets,
    unless that text would be longer than the engine lets a string be:
    then it does what the engine does in that case. *)
Definition btoa (engine : JS.Engine) (data : list N) : option string :=
  if forallb (fun c => c <=? 255) data
  then if encoded_length (N.of_nat (List.length data))
          <=? JS.maxStringLength engine
       then Some (encode_groups data)
       else JS.btoa_overflow engine
  else None.

Definition bind {A B} (o : option A) (f : A -> option B) : option B :=
  match o with
  | Some a => f a
  | None => None
  end.

Fixpoint decode_groups (s : string) : option (list N) :=
  match s with
  | EmptyString => Some []
  | String c1 (String c2 (String c3 (String c4 rest))) =>
      bind (char_sextet c1) (fun s1 =>
      bind (char_sextet c2) (fun s2 =>
      match rest with
      | EmptyString =>
          if Ascii.eqb c4 pad then
            if Ascii.eqb c3 pad then Some [s1 * 4 + s2 / 16]
            else
              bind (char_sextet c3) (fun s3 =>
              Some [s1 * 4 + s2 / 16; (s2 mod 16) * 16 + s3 / 4])
          else
            bind (char_sextet c3) (fun s3 =>
            bind (char_sextet c4) (fun s4 =>
            Some [s1 * 4 + s2 / 16; (s2 mod 16) * 16 + s3 / 4;
                  (s3 mod 4) * 64 + s4]))
      | String _ _ =>
          bind (char_sextet c3) (fun s3 =>
          bind (char_sextet c4) (fun s4 =>
          bind (decode_groups rest) (fun tl =>
          Some (s1 * 4 + s2 / 16 :: (s2 mod 16) * 16 + s3 / 4 ::
                (s3 mod 4) * 64 + s4 :: tl))))
      end))
  | _ => None
  end.

Fixpoint octets (l : list N) : option (list byte) :=
  match l with
  | [] => Some []
  | n :: tl =>
      bind (Byte.of_N n) (fun b =>
      bind (octets tl) (fun bs => Some (b :: bs)))
  end.

(** Modelled from the spec: [decode], the inverse the round-trip
    property of the specification refers to; the repository has no
    decoder.  It reads groups of four characters, accepts padding in
    the last group only, and fails ([None]) on any other text. *)
Definition decode (s : string) : option (list byte) :=
  bind (decode_groups s) octets.

End Base64.

(* ================================================================== *)
(** ** services/geminiService.ts: [fileToBase64]                       *)
(* ================================================================== *)

Module Encoder.

Import JS.
Open Scope N_scope.

(** What [reader.readAsArrayBuffer(file)] leads to: [onload] with
    [reader.result] (possibly [null]), or [onerror]. *)
Inductive ReadEvent : Type :=
| onload (result : option (list byte))
| onerror.

Definition chunk_size : N := 0x8000.

(** The loop [for (let i = 0; i < len; i += chunk_size)], started at
    index [i] with accumulator [binary]. *)
Equations? chunk_loop (bytes : list byte) (i : N) (binary : list N) : list N
  by wf (N.to_nat (N.of_nat (List.length bytes) - i)) lt :=
  chunk_loop bytes i binary
    with Logic.inspect (i <? N.of_nat (List.length bytes)) => {
    | exist _ true Hlt =>
        let chunk := subarray bytes i (i + chunk_size) in
        chunk_loop bytes (i + chunk_size)
                   (binary ++ fromCharCode (Array_from chunk));
    | exist _ false Hge => binary }.
Proof. unfold chunk_size. apply N.ltb_lt in Hlt. lia. Qed.

Definition read_failed : string :=
  "Failed to read the file contents (buffer is empty).".
Definition convert_failed : string :=
  "Failed to convert file to Base64. The file may be too large for browser memory limits.".
Definition read_error : string :=
  "Error occurred while reading the file. The file might be locked or inaccessible.".

(** The body of [reader.onload] / [reader.onerror].  Inside the [try],
    [binary += ...] throws a RangeError as soon as the string would be
    longer than the engine allows, which happens in some iteration
    exactly when the whole of [binary] is too long; and [btoa] may
    throw.  Either way the [catch] rejects with its own message. *)
Definition on_read (engine : Engine) (ev : ReadEvent) : Settled string :=
  match ev with
  | onload None => Rejected (Error read_failed)
  | onload (Some bytes) =>
      let binary := chunk_loop bytes 0 [] in
      if N.of_nat (List.length binary) <=? maxStringLength engine then
        match Base64.btoa engine binary with
        | Some base64 => Resolved base64
        | None => Rejected (Error convert_failed)
        end
      else Rejected (Error convert_failed)
  | onerror => Rejected (Error read_error)
  end.

(** [fileToBase64(file)], on an engine and for a platform [reader] that
    tells how reading a file ends. *)
Definition fileToBase64 {File : Type} (engine : Engine)
           (reader : File -> ReadEvent) (file : File) : Settled string :=
  on_read engine (reader file).

End Encoder.

(* ================================================================== *)
(** ** services/geminiService.ts: [transcribeMedia]                    *)
(* ================================================================== *)

Module Client.

Import JS.
Open Scope string_scope.

(** *** The request sent to [ai.models.generateContent] *)

Inductive Part : Type :=
| inlineData (mimeType data : string)
| text (t : string).

Record Request : Type := mkRequest {
  model : string;
  parts : list Part             (* contents.parts *)
}.

(** [response.text] may be absent. *)
Record Response : Type := mkResponse {
  response_text : option string
}.

(** One round trip to the remote service: it answers or it throws. *)
Inductive RoundTrip : Type :=
| Answers (response : Response)
| Fails (error : Thrown).

(** The remote service is opaque: any function from requests to
    round-trip results. *)
Definition Remote : Type := Request -> RoundTrip.

(** *** Effects: outbound requests and console output *)

Record World : Type := mkWorld {
  requests : list Request;      (* calls of generateContent, oldest first *)
  console : list Thrown         (* values passed to console.error *)
}.

Definition quiet : World := {| requests := []; console := [] |}.

(** How a computation ends: with a value, or with a thrown value of
    type [E]. *)
Inductive Completion (E A : Type) : Type :=
| Return (value : A)
| Throw (error : E).
Arguments Return {E A} value.
Arguments Throw {E A} error.

Definition Effect (E A : Type) : Type := World -> Completion E A * World.

(** The body of an [async] function: what it throws is an [Error]. *)
Definition M (A : Type) : Type := Effect JsError A.

(** The body of a [try]: what it throws may be anything. *)
Definition Try (A : Type) : Type := Effect Thrown A.

Definition ret {E A} (a : A) : Effect E A := fun w => (Return a, w).

Definition throw {E A} (e : E) : Effect E A := fun w => (Throw e, w).

Definition bind {E A B} (m : Effect E A) (k : A -> Effect E B) : Effect E B :=
  fun w =>
    match m w with
    | (Return a, w') => k a w'
    | (Throw e, w') => (Throw e, w')
    end.

(** [try { body } catch (error) { handler }]. *)
Definition try_catch {A} (body : Try A) (handler : Thrown -> M A) : M A :=
  fun w =>
    match body w with
    | (Return a, w') => (Return a, w')
    | (Throw e, w') => handler e w'
    end.

Notation "x <- m ;; k" := (bind m (fun x => k))
  (at level 61, m at next level, right associativity).
Notation "m ;;; k" := (bind m (fun _ => k))
  (at level 61, right associativity).

(** [await ai.models.generateContent(request)]. *)
Definition generateContent (remote : Remote) (request : Request)
  : Try Response :=
  fun w =>
    let w' := {| requests := requests w ++ [request]; console := console w |} in
    match remote request with
    | Answers response => (Return response, w')
    | Fails error => (Throw error, w')
    end.

(** [console.error(label, error)]. *)
Definition console_error {E} (error : Thrown) : Effect E unit :=
  fun w =>
    (Return tt, {| requests := requests w; console := console w ++ [error] |}).

(** *** Messages *)

Definition api_key_missing : string :=
  "API Key is missing. Please check your environment configuration.".
Definition media_missing : string :=
  "Media data is missing or corrupted. Please try re-uploading the file.".
Definition too_large : string :=
  "The file is too large for direct upload (limit: 500MB).".
Definition empty_response : string :=
  "The AI returned an empty response. This can happen if the media content is not recognized or contains no speech.".
Definition media_rejected : string :=
  "The model rejected this media format or the file size was too large for a single request. Try using a standard MP3 or a smaller MP4 clip.".
Definition communication_error : string :=
  "An error occurred while communicating with the Gemini API.".

(** *** The instruction text *)

Definition timestamps_required : string :=
  "Include timestamps in [HH:MM:SS] format at the beginning of each paragraph or when a new speaker starts. Ensure they are accurate to the media's timeline.".
Definition timestamps_forbidden : string :=
  "Do not include any timestamps.".

(** A line break of the template literal followed by its indentation. *)
Definition break : string :=
  String "010"%char "            ".

(** The ternary on [includeTimestamps] at the head of the [try]. *)
Definition timestampInstruction (includeTimestamps : bool) : string :=
  if includeTimestamps then timestamps_required else timestamps_forbidden.

(** The template literal of the [text] part. *)
Definition instruction (mimeType : string) (includeTimestamps : bool) : string :=
  "Carefully transcribe the following "
    ++ (if startsWith mimeType "video" then "video" else "audio")
    ++ " file. " ++ break
    ++ "Output the transcription as clear text. " ++ break
    ++ timestampInstruction includeTimestamps ++ break
    ++ "If there are multiple speakers, label them clearly (e.g., Speaker A, Speaker B)." ++ break
    ++ "Provide ONLY the transcription text without any conversational filler or meta-commentary.".

(** The object literal passed to [generateContent]. *)
Definition request (base64Data mimeType : string) (includeTimestamps : bool)
  : Request :=
  {| model := "gemini-3-flash-preview";
     parts := [ inlineData mimeType base64Data;
                text (instruction mimeType includeTimestamps) ] |}.

(** *** The size limit *)

(** [(base64Data.length * 3) / 4]: a JavaScript number.  The operands
    stay far below 2^53 and the divisor is a power of two, so the
    floating-point quotient is the exact rational. *)
Definition byteLength (base64Data : string) : Q :=
  inject_Z (Z.of_N (JS.length base64Data * 3)) / inject_Z 4.

Definition limit : Q := inject_Z (500 * 1024 * 1024).

(** [a > b] on numbers. *)
Definition gt (a b : Q) : bool := negb (Qle_bool a b).

(** A parameter with a default value: the default stands in when the
    caller passes nothing. *)
Definition withDefault (argument : option bool) (default : bool) : bool :=
  match argument with
  | Some b => b
  | None => default
  end.

(** The two texts the [catch] looks for. *)
Definition marked (errorStr : string) : bool :=
  includes errorStr "Invalid video data"
  || includes errorStr "INVALID_ARGUMENT".

(** The message of the error with which the [catch] of
    [transcribeMedia] ends for a caught value: a summary of the handler
    below, used to state lemmas about it. *)
Definition rethrown (error : Thrown) : string :=
  match error with
  | thrown_null => message_of_null
  | thrown_undefined => message_of_undefined
  | odd_message => includes_not_a_function
  | no_text => includes_of_undefined
  | object e =>
      if marked (or_else (message e) (json e))
      then media_rejected
      else or_else (message e) communication_error
  end.

(** *** [transcribeMedia]

    [API_KEY] is [process.env.API_KEY]; [includeTimestamps] is [None]
    when the caller omits the third argument. *)
Definition transcribeMedia (API_KEY : option string) (remote : Remote)
           (base64Data mimeType : string) (includeTimestamps : option bool)
  : M string :=
  let apiKey := or_else API_KEY "" in
  let includeTimestamps := withDefault includeTimestamps true in
  if negb (truthy (Some apiKey)) then throw (Error api_key_missing) else
  if negb (truthy (Some base64Data)) then throw (Error media_missing) else
  if gt (byteLength base64Data) limit then throw (Error too_large) else
  try_catch
    (response <- generateContent remote
                   (request base64Data mimeType includeTimestamps) ;;
     match response_text response with
     | Some (String _ _ as t) => ret t
     | _ => throw (object (Error empty_response))
     end)
    (fun error =>
       console_error error ;;;
       match error with
       | thrown_null => throw (Error message_of_null)
       | thrown_undefined => throw (Error message_of_undefined)
       | odd_message => throw (Error includes_not_a_function)
       | no_text => throw (Error includes_of_undefined)
       | object error =>
           let errorStr := or_else (message error) (json error) in
           if marked errorStr
           then throw (Error media_rejected)
           else throw (Error (or_else (message error) communication_error))
       end).

(** Running the call from a quiet world: how the returned promise
    settles, and the requests that went out. *)
Definition run {A} (m : M A) : Completion JsError A * World := m quiet.

End Client.

(* ================================================================== *)
(** ** types.ts                                                        *)
(* ================================================================== *)

Module Types.

Inductive AppStatus : Type := IDLE | PROCESSING | SUCCESS | ERROR.

Definition AppStatus_eqb (a b : AppStatus) : bool :=
  match a, b with
  | IDLE, IDLE | PROCESSING, PROCESSING
  | SUCCESS, SUCCESS | ERROR, ERROR => true
  | _, _ => false
  end.

(** The members of the enumeration, in declaration order. *)
Definition AppStatus_values : list AppStatus :=
  [IDLE; PROCESSING; SUCCESS; ERROR].

(** A [File], as far as the application reads it. *)
Record File : Type := mkFile {
  name : string;
  type : string;
  size : N
}.

Record FileData : Type := mkFileData {
  file : File;
  previewUrl : string;
  base64 : string
}.

End Types.

(* ================================================================== *)
(** ** components/FileUpload.tsx: [validateAndSelectFile]              *)
(* ================================================================== *)

Module FileUpload.

Import JS Types.
Open Scope string_scope.

Definition MAX_SIZE : N := 500 * 1024 * 1024.

(** What the validation ends in: [setError(e)], or the call of
    [onFileSelect(file)]. *)
Inductive Validation : Type :=
| setError (e : string)
| onFileSelect (f : File).

Definition validateAndSelectFile (file : File) : Validation :=
  let isAudio := startsWith (type file) "audio/" in
  let isMp4 := String.eqb (type file) "video/mp4" in
  if negb isAudio && negb isMp4
  then setError "Please upload a valid audio file or MP4 video."
  else if (MAX_SIZE <? size file)%N
       then setError "File is too large. Please upload a file smaller than 500MB."
       else onFileSelect file.

End FileUpload.

(* ================================================================== *)
(** ** App.tsx: the orchestration handlers                             *)
(* ================================================================== *)

Module App.

Import JS Types.
Open Scope string_scope.

(** The [useState] cells of [App] that the handlers write; the two
    cells of the preview player ([isPlaying], [mediaElement]) take no
    part in the flow and are left out. *)
Record State : Type := mkState {
  status : AppStatus;
  isPreparing : bool;
  fileData : option FileData;
  transcription : option string;
  errorMsg : option string;
  includeTimestamps : bool
}.

(** The initial values given to [useState]. *)
Definition initial : State :=
  {| status := IDLE; isPreparing := false; fileData := None;
     transcription := None; errorMsg := None; includeTimestamps := true |}.

(** What a handler starts and then awaits. *)
Inductive Command : Type :=
| fileToBase64 (f : File)
| transcribeMedia (base64Data mimeType : string) (timestamps : bool).

Definition is_transcribeMedia (c : Command) : bool :=
  match c with
  | transcribeMedia _ _ _ => true
  | fileToBase64 _ => false
  end.

(** [handleFileSelect] up to [await fileToBase64(file)]. *)
Definition handleFileSelect (s : State) (f : File) : State * list Command :=
  ({| status := IDLE;
      isPreparing := true;
      errorMsg := None;
      transcription := None;
      fileData := None;
      includeTimestamps := includeTimestamps s |},
   [fileToBase64 f]).

(** [handleFileSelect] from the moment the awaited promise settles:
    the rest of the [try], or the [catch], and then the [finally]. *)
Definition handleFileSelect_resume (s : State) (f : File) (url : string)
           (r : Settled string) : State :=
  let s' :=
    match r with
    | Resolved b64 =>
        {| status := status s; isPreparing := isPreparing s;
           fileData := Some {| file := f; previewUrl := url; base64 := b64 |};
           transcription := transcription s; errorMsg := errorMsg s;
           includeTimestamps := includeTimestamps s |}
    | Rejected err =>
        {| status := status s; isPreparing := isPreparing s;
           fileData := fileData s;
           transcription := transcription s;
           errorMsg := Some (or_else (message err)
                       "Failed to process file. Please try another one.");
           includeTimestamps := includeTimestamps s |}
    end in
  {| status := status s'; isPreparing := false; fileData := fileData s';
     transcription := transcription s'; errorMsg := errorMsg s';
     includeTimestamps := includeTimestamps s' |}.

(** [handleTranscribe] up to [await transcribeMedia(...)]. *)
Definition handleTranscribe (s : State) : State * list Command :=
  match fileData s with
  | Some fd =>
      if truthy (Some (base64 fd)) then
        ({| status := PROCESSING; isPreparing := isPreparing s;
            fileData := fileData s; transcription := transcription s;
            errorMsg := None; includeTimestamps := includeTimestamps s |},
         [transcribeMedia (base64 fd) (type (file fd)) (includeTimestamps s)])
      else
        ({| status := status s; isPreparing := isPreparing s;
            fileData := fileData s; transcription := transcription s;
            errorMsg := Some "File data is not ready. Please try re-selecting the file.";
            includeTimestamps := includeTimestamps s |}, [])
  | None =>
      ({| status := status s; isPreparing := isPreparing s;
          fileData := fileData s; transcription := transcription s;
          errorMsg := Some "File data is not ready. Please try re-selecting the file.";
          includeTimestamps := includeTimestamps s |}, [])
  end.

(** [handleTranscribe] from the moment the awaited promise settles. *)
Definition handleTranscribe_resume (s : State) (r : Settled string) : State :=
  match r with
  | Resolved result =>
      {| status := SUCCESS; isPreparing := isPreparing s;
         fileData := fileData s; transcription := Some result;
         errorMsg := errorMsg s; includeTimestamps := includeTimestamps s |}
  | Rejected err =>
      {| status := ERROR; isPreparing := isPreparing s;
         fileData := fileData s; transcription := transcription s;
         errorMsg := Some (or_else (message err)
                     "An unexpected error occurred during transcription.");
         includeTimestamps := includeTimestamps s |}
  end.

Definition resetApp (s : State) : State :=
  {| fileData := None; transcription := None; status := IDLE;
     isPreparing := false; errorMsg := None;
     includeTimestamps := includeTimestamps s |}.

(** [onChange] of the timestamp checkbox. *)
Definition toggleTimestamps (s : State) : State :=
  {| status := status s; isPreparing := isPreparing s;
     fileData := fileData s; transcription := transcription s;
     errorMsg := errorMsg s;
     includeTimestamps := negb (includeTimestamps s) |}.

(** What can happen to the component: the user acts on a control, or
    an awaited promise settles and its handler resumes. *)
Inductive Event : Type :=
| SelectFile (f : File)
| Encoded (f : File) (url : string) (r : Settled string)
| ClickTranscribe
| Transcribed (r : Settled string)
| ClickReset
| ToggleTimestamps.

Definition step (s : State) (e : Event) : State * list Command :=
  match e with
  | SelectFile f => handleFileSelect s f
  | Encoded f url r => (handleFileSelect_resume s f url r, [])
  | ClickTranscribe => handleTranscribe s
  | Transcribed r => (handleTranscribe_resume s r, [])
  | ClickReset => (resetApp s, [])
  | ToggleTimestamps => (toggleTimestamps s, [])
  end.

(** The state after a sequence of events, and every command issued on
    the way, oldest first. *)
Fixpoint run (s : State) (es : list Event) : State * list Command :=
  match es with
  | [] => (s, [])
  | e :: es' =>
      let (s1, c1) := step s e in
      let (s2, c2) := run s1 es' in
      (s2, (c1 ++ c2)%list)
  end.

(** The render conditions of the controls: which user events the
    rendered page offers in state [s]. *)
Definition rendersFileUpload (s : State) : bool :=
  match fileData s with None => negb (isPreparing s) | Some _ => false end.

Definition offered (s : State) (e : Event) : bool :=
  match e with
  | SelectFile _ => rendersFileUpload s
  | ClickTranscribe =>
      match fileData s with
      | Some _ => negb (AppStatus_eqb (status s) PROCESSING)
                  && negb (AppStatus_eqb (status s) SUCCESS)
      | None => false
      end
  | ClickReset =>
      match fileData s, transcription s with
      | None, None => false
      | None, Some t => truthy (Some t)
      | Some _, _ => true
      end
  | ToggleTimestamps =>
      match fileData s with
      | Some _ => negb (AppStatus_eqb (status s) PROCESSING)
                  && negb (AppStatus_eqb (status s) SUCCESS)
      | None => false
      end
  | Encoded _ _ _ | Transcribed _ => true
  end.

(** An invariant of the handlers: while the status is PROCESSING
    there is file data. *)
Definition processing_has_file (s : State) : Prop :=
  status s = PROCESSING -> fileData s <> None.

(** Every event of the sequence is offered in the state it meets. *)
Fixpoint all_offered (s : State) (es : list Event) : bool :=
  match es with
  | [] => true
  | e :: es' => offered s e && all_offered (fst (step s e)) es'
  end.

End App.

(* ================================================================== *)
(** ** The specification's vocabulary                                  *)
(* ================================================================== *)

Module Spec.

(** The application state as the specification words it (section 3):
    written from the specification, to be compared with
    [Types.AppStatus]. *)
Inductive AppState : Type := Idle | Preparing | Processing | Success | Error.

End Spec.

(* ================================================================== *)
(** ** Test data                                                       *)
(* ================================================================== *)

Module Sample.

Fixpoint letters (n : nat) : string :=
  match n with
  | O => EmptyString
  | S n' => String "A"%char (letters n')
  end.

(** A payload of [n] characters, all [A]. *)
Definition payload_of_length (n : N) : string := letters (N.to_nat n).

(** A reader for which every file loads with the given contents. *)
Definition loads (contents : list byte) : Encoder.ReadEvent :=
  Encoder.onload (Some contents).

Definition quote : string := String "034"%char EmptyString.

(** [JSON.stringify] of a thrown object whose only property is
    [status], a string. *)
Definition json_status (status : string) : string :=
  ("{" ++ quote ++ "status" ++ quote ++ ":" ++ quote ++ status ++ quote ++ "}")%string.

Definition song : Types.File :=
  {| Types.name := "song.mp3"; Types.type := "audio/mpeg"; Types.size := 3 |}.

Definition clip : Types.File :=
  {| Types.name := "clip.mp4"; Types.type := "video/mp4"; Types.size := 6 |}.

(** A file is selected and encoded, and its transcription is started. *)
Definition until_processing : list App.Event :=
  [ App.SelectFile song;
    App.Encoded song "blob:1" (JS.Resolved "QUJD"%string);
    App.ClickTranscribe ].

(** A remote service that answers every request with [t]. *)
Definition answering (t : option string) : Client.Remote :=
  fun _ => Client.Answers {| Client.response_text := t |}.

(** A remote service that fails every request with [e]. *)
Definition failing (e : JS.JsError) : Client.Remote :=
  fun _ => Client.Fails (JS.object e).

End Sample.

(* ================================================================== *)
(** ** App.tsx: what the page renders                                  *)
(* ================================================================== *)

Module Page.

Import JS Types App.
Open Scope string_scope.

(** [const isVideoFile = fileData?.file.type === 'video/mp4']. *)
Definition isVideoFile (s : State) : bool :=
  match fileData s with
  | Some fd => String.eqb (type (file fd)) "video/mp4"
  | None => false
  end.

(** [{isPreparing && (...)}]: the preparation loader. *)
Definition rendersLoader (s : State) : bool := isPreparing s.

(** [{fileData && (...)}]: the selected file and its actions. *)
Definition rendersFileView (s : State) : bool :=
  match fileData s with Some _ => true | None => false end.

(** [{((status === AppStatus.ERROR || errorMsg) && !isPreparing) && (...)}]:
    the error banner, which shows [errorMsg]. *)
Definition rendersError (s : State) : bool :=
  (AppStatus_eqb (status s) ERROR || truthy (errorMsg s))
  && negb (isPreparing s).

(** [{transcription && (...)}]: the results section. *)
Definition rendersResults (s : State) : bool := truthy (transcription s).

(** How many of the three panels of the main interface are rendered:
    the uploader, the loader and the selected-file view. *)
Definition panels (s : State) : nat :=
  (if rendersFileUpload s then 1 else 0)
  + (if rendersLoader s then 1 else 0)
  + (if rendersFileView s then 1 else 0).

(** What the handlers keep true of the state, whatever the order in
    which events arrive. *)
Definition consistent (s : State) : Prop :=
  (isPreparing s = true -> fileData s = None) /\
  (status s = SUCCESS -> exists t, transcription s = Some t) /\
  (status s = ERROR -> truthy (errorMsg s) = true).

Definition is_ClickTranscribe (e : Event) : bool :=
  match e with
  | ClickTranscribe => true
  | _ => false
  end.

Definition is_ToggleTimestamps (e : Event) : bool :=
  match e with
  | ToggleTimestamps => true
  | _ => false
  end.

(** The payload of a transcription command is not empty. *)
Definition has_payload (c : Command) : bool :=
  match c with
  | transcribeMedia base64Data _ _ => truthy (Some base64Data)
  | fileToBase64 _ => true
  end.

End Page.

(* ================================================================== *)
(** ** App.tsx: a handler and the call it awaits                       *)
(* ================================================================== *)

Module Flow.

Import JS Types App.

(** The promise of an [async] function: it resolves with the value
    returned and rejects with the value thrown. *)
Definition settle {A : Type} (c : Client.Completion JsError A) : Settled A :=
  match c with
  | Client.Return a => Resolved a
  | Client.Throw e => Rejected e
  end.

Section Platform.

(** The platform: the engine, how reading a file ends,
    [URL.createObjectURL], [process.env.API_KEY] and the remote
    service. *)
Variable engine : Engine.
Variable reader : File -> Encoder.ReadEvent.
Variable createObjectURL : File -> string.
Variable API_KEY : option string.
Variable remote : Client.Remote.

(** The event by which the call a handler awaits comes back to it:
    [handleFileSelect] awaits [fileToBase64(file)], and
    [handleTranscribe] awaits
    [transcribeMedia(fileData.base64, fileData.file.type, includeTimestamps)]. *)
Definition settles (c : Command) : Event :=
  match c with
  | fileToBase64 f =>
      Encoded f (createObjectURL f) (Encoder.fileToBase64 engine reader f)
  | transcribeMedia base64Data mimeType timestamps =>
      Transcribed
        (settle (fst (Client.run
                        (Client.transcribeMedia API_KEY remote base64Data
                                                mimeType (Some timestamps)))))
  end.

(** A handler run to its end with no other event in between: the part
    up to the [await], then the rest with what the awaited call gave. *)
Definition complete (s : State) (e : Event) : State :=
  let (s1, cmds) := step s e in
  fold_left (fun st c => fst (step st (settles c))) cmds s1.

End Platform.

End Flow.

(* ================================================================== *)
(** ** Further test data                                               *)
(* ================================================================== *)

Module Fixture.

(** A reader for which no file can be read. *)
Definition unreadable (f : Types.File) : Encoder.ReadEvent := Encoder.onerror.

(** A reader for which every file has the given contents. *)
Definition holding (contents : list byte) (f : Types.File)
  : Encoder.ReadEvent :=
  Encoder.onload (Some contents).

(** [URL.createObjectURL] as a fixed handle. *)
Definition handle (url : string) (f : Types.File) : string := url.


(** An engine with room for strings of 2^30 - 2 code units, on which
    [btoa] throws when its result would be longer. *)
Definition roomy : JS.Engine :=
  {| JS.maxStringLength := 1073741822; JS.btoa_overflow := None |}.

(** A remote service that throws [v] at every request. *)
Definition throwing (v : JS.Thrown) : Client.Remote :=
  fun _ => Client.Fails v.

(** A buffer of [n] zero bytes. *)
Definition zeros (n : N) : list byte := repeat x00%byte (N.to_nat n).

(** A file of exactly 500 MiB. *)
Definition full : Types.File :=
  {| Types.name := "full.mp3"; Types.type := "audio/mpeg";
     Types.size := 524288000 |}.

Definition silence : Types.File :=
  {| Types.name := "silence.wav"; Types.type := "audio/wav";
     Types.size := 0 |}.

End Fixture.

(* ================================================================== *)
(** * Properties                                                       *)
(* ================================================================== *)

(** ** The base64 table *)

Section Table.

Import Base64.
Open Scope N_scope.

(** Every 6-bit value has a character of the alphabet, different from
    the padding character, and the table reads it back. *)
Lemma sextet_table (n : N) :
  n < 64 ->
  char_sextet (sextet_char n) = Some n /\
  Ascii.eqb (sextet_char n) pad = false.
Proof.
  intros Hn.
  rewrite <- (N2Nat.id n).
  assert (Hk : (N.to_nat n < 64)%nat) by lia.
  generalize dependent (N.to_nat n). clear n Hn. intros k Hk.
  do 64 (destruct k as [|k]; [vm_compute; split; reflexivity|]).
  lia.
Qed.

Lemma char_sextet_char (n : N) :
  n < 64 -> char_sextet (sextet_char n) = Some n.
Proof. intros H. apply (sextet_table H). Qed.

Lemma sextet_char_not_pad (n : N) :
  n < 64 -> Ascii.eqb (sextet_char n) pad = false.
Proof. intros H. apply (sextet_table H). Qed.

End Table.

(** ** Splitting octets into 6-bit values and back *)

Section Regroup.

Open Scope N_scope.

Ltac euclid := zify; Z.to_euclidean_division_equations; lia.

Lemma sextet1_lt a : a < 256 -> a / 4 < 64.
Proof. intros. euclid. Qed.

Lemma sextet2_lt a b : b < 256 -> (a mod 4) * 16 + b / 16 < 64.
Proof. intros. euclid. Qed.

Lemma sextet2_final_lt a : (a mod 4) * 16 < 64.
Proof. intros. euclid. Qed.

Lemma sextet3_lt b c : c < 256 -> (b mod 16) * 4 + c / 64 < 64.
Proof. intros. euclid. Qed.

Lemma sextet3_final_lt b : (b mod 16) * 4 < 64.
Proof. intros. euclid. Qed.

Lemma sextet4_lt c : c mod 64 < 64.
Proof. intros. euclid. Qed.

Lemma octet1_back a b :
  b < 256 -> (a / 4) * 4 + ((a mod 4) * 16 + b / 16) / 16 = a.
Proof. intros. euclid. Qed.

Lemma octet1_final_back a : (a / 4) * 4 + ((a mod 4) * 16) / 16 = a.
Proof. intros. euclid. Qed.

Lemma octet2_back a b c :
  b < 256 -> c < 256 ->
  (((a mod 4) * 16 + b / 16) mod 16) * 16 + ((b mod 16) * 4 + c / 64) / 4 = b.
Proof. intros. euclid. Qed.

Lemma octet2_final_back a b :
  b < 256 ->
  (((a mod 4) * 16 + b / 16) mod 16) * 16 + ((b mod 16) * 4) / 4 = b.
Proof. intros. euclid. Qed.

Lemma octet3_back b c :
  c < 256 -> (((b mod 16) * 4 + c / 64) mod 4) * 64 + c mod 64 = c.
Proof. intros. euclid. Qed.

End Regroup.

(** ** Encoding and decoding groups *)

Section Groups.

Import Base64.
Open Scope N_scope.

(** Induction over a list three elements at a time, as the encoder
    consumes it. *)
Lemma list_ind3 (A : Type) (P : list A -> Prop) :
  P [] ->
  (forall a, P [a]) ->
  (forall a b, P [a; b]) ->
  (forall a b c l, P l -> P (a :: b :: c :: l)) ->
  forall l, P l.
Proof.
  intros H0 H1 H2 H3.
  assert (H : forall l, P l /\ (forall a, P (a :: l))
                        /\ (forall a b, P (a :: b :: l))).
  { induction l as [|x l (IH0 & IH1 & IH2)].
    - repeat split; auto.
    - repeat split; auto. }
  intros l. apply H.
Qed.

Lemma encode_groups_length (l : list N) :
  N.of_nat (String.length (encode_groups l))
  = (N.of_nat (List.length l) + 2) / 3 * 4.
Proof.
  induction l as [| a | a b | a b c l IH] using list_ind3;
    try reflexivity.
  cbn [encode_groups String.length List.length].
  replace (N.of_nat (S (S (S (List.length l)))) + 2)
    with ((N.of_nat (List.length l) + 2) + 1 * 3) by lia.
  rewrite N.div_add by lia.
  lia.
Qed.

Lemma encode_groups_nonempty (l : list N) :
  l <> [] -> exists c s, encode_groups l = String c s.
Proof.
  destruct l as [|a [|b [|c l]]]; intros H; [contradiction| | |];
    cbn [encode_groups]; eauto.
Qed.

Lemma encode_groups_nil_iff (l : list N) :
  encode_groups l = EmptyString <-> l = [].
Proof.
  split; [|intros ->; reflexivity].
  destruct l as [|a [|b [|c l]]]; cbn [encode_groups]; congruence.
Qed.

(** Decoding undoes the grouping on octets. *)
Lemma decode_encode_groups (l : list N) :
  Forall (fun c => c < 256) l ->
  decode_groups (encode_groups l) = Some l.
Proof.
  induction l as [| a | a b | a b c l IH] using list_ind3; intros Hl.
  - reflexivity.
  - cbn [encode_groups decode_groups].
    inversion_clear Hl as [|? ? Ha _].
    rewrite (char_sextet_char (sextet1_lt Ha)).
    rewrite (char_sextet_char (sextet2_final_lt a)).
    cbn [bind]. rewrite Ascii.eqb_refl.
    rewrite octet1_final_back. reflexivity.
  - cbn [encode_groups decode_groups].
    inversion_clear Hl as [|? ? Ha Hl']. inversion_clear Hl' as [|? ? Hb _].
    rewrite (char_sextet_char (sextet1_lt Ha)).
    rewrite (char_sextet_char (sextet2_lt a Hb)).
    cbn [bind]. rewrite Ascii.eqb_refl.
    rewrite (sextet_char_not_pad (sextet3_final_lt b)).
    rewrite (char_sextet_char (sextet3_final_lt b)).
    cbn [bind].
    rewrite (octet1_back a Hb), (octet2_final_back a Hb). reflexivity.
  - inversion_clear Hl as [|? ? Ha Hl1]. inversion_clear Hl1 as [|? ? Hb Hl2].
    inversion_clear Hl2 as [|? ? Hc Hl3].
    cbn [encode_groups decode_groups].
    rewrite (char_sextet_char (sextet1_lt Ha)).
    rewrite (char_sextet_char (sextet2_lt a Hb)).
    cbn [bind].
    rewrite (char_sextet_char (sextet3_lt b Hc)).
    rewrite (char_sextet_char (sextet4_lt c)).
    rewrite (sextet_char_not_pad (sextet4_lt c)).
    cbn [bind].
    rewrite (octet1_back a Hb), (octet2_back a Hb Hc), (octet3_back b Hc).
    destruct l as [|x l'].
    + reflexivity.
    + destruct (@encode_groups_nonempty (x :: l')) as (d & s & E);
        [discriminate|].
      rewrite E in *. rewrite (IH Hl3). reflexivity.
Qed.

Lemma octets_to_N (B : list byte) : octets (map Byte.to_N B) = Some B.
Proof.
  induction B as [|b B IH]; [reflexivity|].
  cbn [map octets]. rewrite Byte.of_to_N, IH. reflexivity.
Qed.

Lemma to_N_octet (B : list byte) :
  Forall (fun c => c < 256) (map Byte.to_N B).
Proof.
  apply Forall_forall. intros c Hc.
  apply in_map_iff in Hc as (b & <- & _).
  pose proof (Byte.to_N_bounded b). lia.
Qed.

Lemma octets_pass (l : list N) :
  Forall (fun c => c < 256) l -> forallb (fun c => c <=? 255) l = true.
Proof.
  intros Hl. apply forallb_forall. intros c Hc.
  rewrite Forall_forall in Hl. specialize (Hl c Hc).
  apply N.leb_le. lia.
Qed.

(** [btoa] accepts a string of octets whose base64 text fits into a
    string of the engine. *)
Lemma btoa_octets (engine : JS.Engine) (l : list N) :
  Forall (fun c => c < 256) l ->
  encoded_length (N.of_nat (List.length l)) <= JS.maxStringLength engine ->
  btoa engine l = Some (encode_groups l).
Proof.
  intros Hl Hfit. unfold btoa. rewrite (octets_pass Hl).
  apply N.leb_le in Hfit. now rewrite Hfit.
Qed.

(** Beyond that length it does what the engine does. *)
Lemma btoa_beyond (engine : JS.Engine) (l : list N) :
  Forall (fun c => c < 256) l ->
  JS.maxStringLength engine < encoded_length (N.of_nat (List.length l)) ->
  btoa engine l = JS.btoa_overflow engine.
Proof.
  intros Hl Hbig. unfold btoa. rewrite (octets_pass Hl).
  apply N.leb_gt in Hbig. now rewrite Hbig.
Qed.

Lemma encoded_length_ge (n : N) : n <= encoded_length n.
Proof.
  unfold encoded_length. zify. Z.to_euclidean_division_equations. lia.
Qed.

End Groups.

(** ** The chunk loop *)

Section Loop.

Import JS Encoder.
Open Scope list_scope.
Open Scope N_scope.

Lemma fromCharCode_octets (B : list byte) :
  fromCharCode (Array_from B) = map Byte.to_N B.
Proof.
  unfold fromCharCode, Array_from. rewrite map_map.
  apply map_ext. intros b.
  pose proof (Byte.to_N_bounded b). apply N.mod_small. lia.
Qed.

(** A chunk followed by the rest after it is the rest before it. *)
Lemma subarray_then_rest (B : list byte) (i n : N) :
  subarray B i (i + n) ++ skipn (N.to_nat (i + n)) B = skipn (N.to_nat i) B.
Proof.
  unfold subarray.
  replace (i + n - i) with n by lia.
  replace (N.to_nat (i + n)) with (N.to_nat n + N.to_nat i)%nat by lia.
  rewrite <- skipn_skipn. apply firstn_skipn.
Qed.

(** The loop appends, chunk after chunk, one code unit per byte from
    index [i] on: chunking does not change the result. *)
Lemma chunk_loop_from (bytes : list byte) (i : N) (binary : list N) :
  chunk_loop bytes i binary
  = (binary ++ map Byte.to_N (skipn (N.to_nat i) bytes))%list.
Proof.
  funelim (chunk_loop bytes i binary).
  - rewrite H. rewrite <- app_assoc. f_equal.
    rewrite fromCharCode_octets, <- map_app.
    f_equal. apply subarray_then_rest.
  - pose proof (proj1 (N.ltb_ge _ _) Hge).
    rewrite skipn_all2 by lia. cbn [map]. rewrite app_nil_r. reflexivity.
Qed.

Lemma chunk_loop_all (bytes : list byte) :
  chunk_loop bytes 0 [] = map Byte.to_N bytes.
Proof. rewrite chunk_loop_from. reflexivity. Qed.

(** On a buffer that was read and whose base64 text fits into a string
    of the engine, the encoder resolves with that text. *)
Lemma on_read_loaded (engine : Engine) (B : list byte) :
  Base64.encoded_length (N.of_nat (List.length B)) <= maxStringLength engine ->
  on_read engine (onload (Some B))
  = Resolved (Base64.encode_groups (map Byte.to_N B)).
Proof.
  intros Hfit. unfold on_read. rewrite chunk_loop_all, length_map.
  pose proof (encoded_length_ge (N.of_nat (List.length B))) as Hge.
  replace (N.of_nat (List.length B) <=? maxStringLength engine) with true
    by (symmetry; apply N.leb_le; lia).
  rewrite (@btoa_octets engine _ (to_N_octet B)); [reflexivity|].
  now rewrite length_map.
Qed.

(** On a longer buffer the promise settles as the engine has it: with
    the text that [btoa] returns instead, or with the rejection of the
    [catch]. *)
Lemma on_read_beyond (engine : Engine) (B : list byte) :
  maxStringLength engine < Base64.encoded_length (N.of_nat (List.length B)) ->
  on_read engine (onload (Some B))
  = match btoa_overflow engine with
    | Some instead =>
        if N.of_nat (List.length B) <=? maxStringLength engine
        then Resolved instead
        else Rejected (Error convert_failed)
    | None => Rejected (Error convert_failed)
    end.
Proof.
  intros Hbig. unfold on_read. rewrite chunk_loop_all, length_map.
  destruct (N.of_nat (List.length B) <=? maxStringLength engine).
  - rewrite (@btoa_beyond engine _ (to_N_octet B)) by now rewrite length_map.
    destruct (btoa_overflow engine); reflexivity.
  - destruct (btoa_overflow engine); reflexivity.
Qed.

End Loop.

(** ** The caller of the encoder *)

(** Only audio files and MP4 videos of at most 500 MiB reach
    [onFileSelect], and so the encoder. *)
Lemma validateAndSelectFile_admits (file f : Types.File) :
  FileUpload.validateAndSelectFile file = FileUpload.onFileSelect f ->
  f = file /\
  (Types.size file <= 500 * 1024 * 1024)%N /\
  (JS.startsWith (Types.type file) "audio/" = true \/
   Types.type file = "video/mp4"%string).
Proof.
  unfold FileUpload.validateAndSelectFile.
  destruct (JS.startsWith (Types.type file) "audio/") eqn:Ea;
    destruct (String.eqb (Types.type file) "video/mp4") eqn:Em;
    cbn [negb andb]; try discriminate;
    destruct (N.ltb_spec FileUpload.MAX_SIZE (Types.size file)) as [Hlt|Hle];
    try discriminate; intros [= <-];
    (split; [reflexivity|]); (split; [exact Hle|]);
    first [left; reflexivity | right; now apply String.eqb_eq].
Qed.

Example validateAndSelectFile_samples :
  FileUpload.validateAndSelectFile Sample.song
  = FileUpload.onFileSelect Sample.song /\
  FileUpload.validateAndSelectFile
    {| Types.name := "notes.txt"; Types.type := "text/plain"; Types.size := 10 |}
  = FileUpload.setError "Please upload a valid audio file or MP4 video." /\
  FileUpload.validateAndSelectFile
    {| Types.name := "long.mp4"; Types.type := "video/mp4";
       Types.size := 524288001 |}
  = FileUpload.setError
      "File is too large. Please upload a file smaller than 500MB.".
Proof. repeat split; reflexivity. Qed.

(** ** The encoder *)

Section EncoderProperties.

Import JS Encoder.
Open Scope N_scope.

Variable File : Type.
Variable engine : Engine.
Variable reader : File -> ReadEvent.
Variable file : File.
Variable B : list byte.

(** The platform read the file and handed its contents [B] over. *)
Hypothesis Hread : reader file = onload (Some B).

(** The base64 text of [B] fits into a string of the engine. *)
Hypothesis Hfits :
  Base64.encoded_length (N.of_nat (List.length B)) <= maxStringLength engine.

(** For every byte buffer [B] whose base64 text fits into a string of
    the engine, decoding the string that [fileToBase64] produces for a
    file with contents [B] gives back exactly [B]; this covers the
    lengths 0, 1, 3k, 3k+1 and 3k+2. *)
Theorem fileToBase64_roundtrip :
  exists base64,
    fileToBase64 engine reader file = Resolved base64 /\
    Base64.decode base64 = Some B.
Proof using Hread Hfits.
  exists (Base64.encode_groups (map Byte.to_N B)). split.
  - unfold fileToBase64. rewrite Hread. now apply on_read_loaded.
  - unfold Base64.decode.
    rewrite (decode_encode_groups (to_N_octet B)).
    cbn [Base64.bind]. apply octets_to_N.
Qed.

(** For every buffer of length [L] whose base64 text fits into a string
    of the engine, the encoder does not fail, and the base64 string has
    exactly [ceil(L/3) * 4] characters, padding included: [q] below is
    the least number with [L <= 3 * q].  An empty buffer gives the
    empty string. *)
Theorem fileToBase64_length :
  exists base64 q,
    fileToBase64 engine reader file = Resolved base64 /\
    N.of_nat (List.length B) <= 3 * q /\
    3 * q < N.of_nat (List.length B) + 3 /\
    JS.length base64 = q * 4 /\
    (B = [] -> base64 = EmptyString).
Proof using Hread Hfits.
  exists (Base64.encode_groups (map Byte.to_N B)).
  exists ((N.of_nat (List.length B) + 2) / 3).
  split; [unfold fileToBase64; rewrite Hread; now apply on_read_loaded|].
  split; [clear; zify; Z.to_euclidean_division_equations; lia|].
  split; [clear; zify; Z.to_euclidean_division_equations; lia|].
  split.
  - unfold JS.length. rewrite encode_groups_length, length_map. reflexivity.
  - intros ->. reflexivity.
Qed.

End EncoderProperties.

(** A buffer of four bytes (3k+1) makes the round trip on Chromium. *)
Lemma fileToBase64_roundtrip_witness :
  let B := [x4d; x61; x6e; xff]%byte in
  Sample.loads B = Encoder.onload (Some B) /\
  (Base64.encoded_length (N.of_nat (List.length B))
   <= JS.maxStringLength JS.Chromium)%N /\
  exists base64,
    Encoder.fileToBase64 JS.Chromium Sample.loads B = JS.Resolved base64 /\
    Base64.decode base64 = Some B.
Proof.
  split; [reflexivity|]. split; [vm_compute; discriminate|].
  apply (@fileToBase64_roundtrip (list byte) JS.Chromium Sample.loads
           [x4d; x61; x6e; xff]%byte [x4d; x61; x6e; xff]%byte).
  - reflexivity.
  - vm_compute; discriminate.
Defined.

(** A buffer of five bytes (3k+2) is encoded in eight characters. *)
Lemma fileToBase64_length_witness :
  let B := [x00; x10; x83; xfb; xff]%byte in
  Sample.loads B = Encoder.onload (Some B) /\
  (Base64.encoded_length (N.of_nat (List.length B))
   <= JS.maxStringLength JS.Chromium)%N /\
  exists base64 q,
    Encoder.fileToBase64 JS.Chromium Sample.loads B = JS.Resolved base64 /\
    (N.of_nat (List.length B) <= 3 * q)%N /\
    (3 * q < N.of_nat (List.length B) + 3)%N /\
    JS.length base64 = (q * 4)%N /\
    (B = [] -> base64 = EmptyString).
Proof.
  split; [reflexivity|]. split; [vm_compute; discriminate|].
  apply (@fileToBase64_length (list byte) JS.Chromium Sample.loads
           [x00; x10; x83; xfb; xff]%byte [x00; x10; x83; xfb; xff]%byte).
  - reflexivity.
  - vm_compute; discriminate.
Defined.

Section BeyondTheLimit.

Import JS Encoder.
Open Scope N_scope.

(** On Chromium the base64 text of more than 402653166 bytes does not
    fit into a string. *)
Lemma beyond_Chromium (L : N) :
  402653166 < L -> maxStringLength Chromium < Base64.encoded_length L.
Proof.
  intros H. unfold Base64.encoded_length. cbn [maxStringLength Chromium].
  zify. Z.to_euclidean_division_equations. lia.
Qed.

Lemma within_Chromium (L : N) :
  L <= 402653166 -> Base64.encoded_length L <= maxStringLength Chromium.
Proof.
  intros H. unfold Base64.encoded_length. cbn [maxStringLength Chromium].
  zify. Z.to_euclidean_division_equations. lia.
Qed.

(** What [fileToBase64] gives on Chromium for such a buffer of at most
    500 MiB: the empty string. *)
Lemma on_read_beyond_Chromium (B : list byte) :
  402653166 < N.of_nat (List.length B) ->
  N.of_nat (List.length B) <= 500 * 1024 * 1024 ->
  on_read Chromium (onload (Some B)) = Resolved EmptyString.
Proof.
  intros Hbig Hsize. rewrite (@on_read_beyond Chromium B (beyond_Chromium Hbig)).
  cbn [btoa_overflow maxStringLength Chromium].
  replace (N.of_nat (List.length B) <=? 536870888) with true;
    [reflexivity|].
  symmetry. apply N.leb_le. lia.
Qed.

Lemma zeros_length (n : N) : N.of_nat (List.length (Fixture.zeros n)) = n.
Proof. unfold Fixture.zeros. rewrite repeat_length. apply N2Nat.id. Qed.

End BeyondTheLimit.

(** C1: the round trip does not hold for every buffer of at most
    500 MiB.  On Chromium, for a file of more than 402653166 bytes the
    base64 text would be longer than a string may be, [btoa] returns
    the empty string and [fileToBase64] resolves with it: decoding
    gives the empty buffer, not the contents of the file. *)
Theorem fileToBase64_round_trip_lost
        (File : Type) (reader : File -> Encoder.ReadEvent) (file : File)
        (B : list byte) :
  reader file = Encoder.onload (Some B) ->
  (402653166 < N.of_nat (List.length B))%N ->
  (N.of_nat (List.length B) <= 500 * 1024 * 1024)%N ->
  Encoder.fileToBase64 JS.Chromium reader file = JS.Resolved EmptyString /\
  Base64.decode EmptyString = Some [] /\
  B <> [].
Proof.
  intros Hread Hbig Hsize. split; [|split].
  - unfold Encoder.fileToBase64. rewrite Hread.
    now apply on_read_beyond_Chromium.
  - reflexivity.
  - intros ->. cbn in Hbig. lia.
Qed.

(** A file of 402653167 bytes, which the upload control admits. *)
Lemma fileToBase64_round_trip_lost_witness :
  let B := Fixture.zeros 402653167 in
  FileUpload.validateAndSelectFile
    {| Types.name := "long.mp3"; Types.type := "audio/mpeg";
       Types.size := 402653167 |}
  = FileUpload.onFileSelect
      {| Types.name := "long.mp3"; Types.type := "audio/mpeg";
         Types.size := 402653167 |} /\
  N.of_nat (List.length B) = 402653167%N /\
  Encoder.fileToBase64 JS.Chromium Sample.loads B = JS.Resolved EmptyString /\
  Base64.decode EmptyString = Some [] /\
  B <> [].
Proof.
  cbv zeta. split; [reflexivity|]. split; [apply zeros_length|].
  apply (@fileToBase64_round_trip_lost (list byte) Sample.loads
           (Fixture.zeros 402653167) (Fixture.zeros 402653167) eq_refl).
  - rewrite zeros_length. reflexivity.
  - rewrite zeros_length. vm_compute. discriminate.
Defined.

(** C2: the length is not [ceil(L/3) * 4] for every buffer of at most
    500 MiB.  On Chromium, for a file of [L] bytes with
    [402653166 < L] the string [fileToBase64] resolves with has no
    character at all, while [ceil(L/3) * 4] is more than 536870888. *)
Theorem fileToBase64_length_lost
        (File : Type) (reader : File -> Encoder.ReadEvent) (file : File)
        (B : list byte) :
  reader file = Encoder.onload (Some B) ->
  (402653166 < N.of_nat (List.length B))%N ->
  (N.of_nat (List.length B) <= 500 * 1024 * 1024)%N ->
  exists base64,
    Encoder.fileToBase64 JS.Chromium reader file = JS.Resolved base64 /\
    JS.length base64 = 0%N /\
    (536870888 < (N.of_nat (List.length B) + 2) / 3 * 4)%N.
Proof.
  intros Hread Hbig Hsize. exists EmptyString. split; [|split].
  - unfold Encoder.fileToBase64. rewrite Hread.
    now apply on_read_beyond_Chromium.
  - reflexivity.
  - exact (beyond_Chromium Hbig).
Qed.

(** A file of exactly 500 MiB. *)
Lemma fileToBase64_length_lost_witness :
  let B := Fixture.zeros 524288000 in
  N.of_nat (List.length B) = 524288000%N /\
  exists base64,
    Encoder.fileToBase64 JS.Chromium Sample.loads B = JS.Resolved base64 /\
    JS.length base64 = 0%N /\
    (536870888 < (N.of_nat (List.length B) + 2) / 3 * 4)%N.
Proof.
  cbv zeta. split; [apply zeros_length|].
  apply (@fileToBase64_length_lost (list byte) Sample.loads
           (Fixture.zeros 524288000) (Fixture.zeros 524288000) eq_refl).
  - rewrite zeros_length. reflexivity.
  - rewrite zeros_length. vm_compute. discriminate.
Defined.

(** The encoder on buffers of length 0, 1, 2, 3 and 4. *)
Example fileToBase64_samples :
  Encoder.fileToBase64 JS.Chromium Sample.loads [] = JS.Resolved ""%string /\
  Encoder.fileToBase64 JS.Chromium Sample.loads [x4d]%byte
    = JS.Resolved "TQ=="%string /\
  Encoder.fileToBase64 JS.Chromium Sample.loads [x4d; x61]%byte
    = JS.Resolved "TWE="%string /\
  Encoder.fileToBase64 JS.Chromium Sample.loads [x4d; x61; x6e]%byte
    = JS.Resolved "TWFu"%string /\
  Encoder.fileToBase64 JS.Chromium Sample.loads [xff; xfe; xfd; x00]%byte
    = JS.Resolved "//79AA=="%string.
Proof. repeat split; reflexivity. Qed.

(** A buffer that spans three chunks of the loop. *)
Example fileToBase64_three_chunks :
  let B := repeat x41%byte (N.to_nat 70000) in
  match Encoder.fileToBase64 JS.Chromium Sample.loads B with
  | JS.Resolved base64 =>
      N.eqb (JS.length base64) 93336
      && match Base64.decode base64 with
         | Some B' => N.eqb (N.of_nat (List.length B')) 70000
                      && forallb (Byte.eqb x41%byte) B'
         | None => false
         end
  | JS.Rejected _ => false
  end = true.
Proof. vm_compute. reflexivity. Qed.

(** What the encoder does when the read fails, when the platform hands
    over no buffer, and what [btoa] does outside the octets. *)
Example fileToBase64_failures :
  Encoder.fileToBase64 JS.Chromium (fun _ : unit => Encoder.onerror) tt
    = JS.Rejected (JS.Error Encoder.read_error) /\
  Encoder.fileToBase64 JS.Chromium (fun _ : unit => Encoder.onload None) tt
    = JS.Rejected (JS.Error Encoder.read_failed) /\
  Base64.btoa JS.Chromium [256%N] = None.
Proof. repeat split; reflexivity. Qed.

(** ** The transcription client: checks before any request *)

Section Preconditions.

Import JS Client.
Open Scope string_scope.

Variable API_KEY : option string.
Variable remote : Remote.
Variable base64Data mimeType : string.
Variable includeTimestamps : option bool.

Lemma or_else_falsy (v : option string) (d : string) :
  truthy v = false -> or_else v d = d.
Proof. destruct v as [[|c s]|]; [reflexivity|discriminate|reflexivity]. Qed.

Lemma or_else_truthy (v : option string) (d : string) :
  truthy v = true -> v = Some (or_else v d) /\ truthy (Some (or_else v d)) = true.
Proof. destruct v as [[|c s]|]; try discriminate. split; reflexivity. Qed.

Lemma gt_true (a b : Q) : gt a b = true <-> (b < a)%Q.
Proof.
  unfold gt. rewrite negb_true_iff. split; intros H.
  - apply Qnot_le_lt. intros Hle. apply Qle_bool_iff in Hle. congruence.
  - destruct (Qle_bool a b) eqn:E; [|reflexivity].
    apply Qle_bool_iff in E. exfalso. exact (Qlt_not_le _ _ H E).
Qed.

Lemma gt_false (a b : Q) : gt a b = false <-> (a <= b)%Q.
Proof.
  unfold gt. rewrite negb_false_iff. apply Qle_bool_iff.
Qed.

(** A payload beyond the limit is not empty. *)
Lemma beyond_limit_nonempty :
  (limit < byteLength base64Data)%Q -> truthy (Some base64Data) = true.
Proof.
  destruct base64Data; [|reflexivity].
  intros H. exfalso. revert H. vm_compute. discriminate.
Qed.

Let call : M string :=
  transcribeMedia API_KEY remote base64Data mimeType includeTimestamps.

Lemma stops_without_credential (w : World) :
  truthy API_KEY = false -> call w = (Throw (Error api_key_missing), w).
Proof.
  intros Hkey. unfold call, transcribeMedia.
  rewrite (@or_else_falsy API_KEY "" Hkey). reflexivity.
Qed.

Lemma stops_on_empty_payload (w : World) :
  truthy API_KEY = true -> base64Data = "" ->
  call w = (Throw (Error media_missing), w).
Proof.
  intros Hkey Hdata. unfold call, transcribeMedia.
  destruct (@or_else_truthy API_KEY "" Hkey) as [_ ->].
  rewrite Hdata. reflexivity.
Qed.

Lemma stops_on_large_payload (w : World) :
  truthy API_KEY = true -> (limit < byteLength base64Data)%Q ->
  call w = (Throw (Error too_large), w).
Proof.
  intros Hkey Hbig. unfold call, transcribeMedia.
  destruct (@or_else_truthy API_KEY "" Hkey) as [_ ->].
  rewrite (beyond_limit_nonempty Hbig).
  rewrite (proj2 (gt_true _ _) Hbig). reflexivity.
Qed.

(** C3: if no credential is configured, [transcribeMedia] fails with
    the missing-API-key error, whatever the payload, the MIME type and
    the timestamp flag, and the remote service is never called: the
    log of requests is left as it was, so a call that starts with no
    request ends with none. *)
Theorem transcribeMedia_no_credential :
  truthy API_KEY = false ->
  (forall w,
      transcribeMedia API_KEY remote base64Data mimeType includeTimestamps w
      = (Throw (Error api_key_missing), w)) /\
  requests (snd (run (transcribeMedia API_KEY remote base64Data mimeType
                                      includeTimestamps))) = [].
Proof.
  intros Hkey. split.
  - intros w. now apply stops_without_credential.
  - unfold run. fold call.
    now rewrite (@stops_without_credential quiet Hkey).
Qed.

(** C4: with a credential configured, an empty payload fails with the
    missing-media error, and a payload whose implied decoded size
    [length * 3 / 4] exceeds 500 MiB fails with the too-large error;
    in both cases no request is sent. *)
Theorem transcribeMedia_invalid_input :
  truthy API_KEY = true ->
  (base64Data = "" ->
   forall w,
     transcribeMedia API_KEY remote base64Data mimeType includeTimestamps w
     = (Throw (Error media_missing), w)) /\
  ((limit < byteLength base64Data)%Q ->
   forall w,
     transcribeMedia API_KEY remote base64Data mimeType includeTimestamps w
     = (Throw (Error too_large), w)).
Proof.
  intros Hkey. split.
  - intros Hdata w. now apply stops_on_empty_payload.
  - intros Hbig w. now apply stops_on_large_payload.
Qed.

End Preconditions.

Lemma letters_length (n : nat) : String.length (Sample.letters n) = n.
Proof. induction n as [|n IH]; [reflexivity|]. cbn. now rewrite IH. Qed.

Lemma payload_of_length_length (n : N) :
  JS.length (Sample.payload_of_length n) = n.
Proof.
  unfold JS.length, Sample.payload_of_length.
  rewrite letters_length. apply N2Nat.id.
Qed.

(** The implied size of a payload of [n] characters. *)
Lemma byteLength_payload_of_length (n : N) :
  Client.byteLength (Sample.payload_of_length n)
  = (inject_Z (Z.of_N (n * 3)) / inject_Z 4)%Q.
Proof. unfold Client.byteLength. now rewrite payload_of_length_length. Qed.

(** The size check compares the exact quotient: 699050666 characters
    imply 524287999.5 bytes and pass, 699050667 imply 524288000.25 and
    do not. *)
Example size_check_boundary :
  Client.gt (Client.byteLength (Sample.payload_of_length 699050666))
            Client.limit = false /\
  Client.gt (Client.byteLength (Sample.payload_of_length 699050667))
            Client.limit = true.
Proof. rewrite !byteLength_payload_of_length. split; reflexivity. Qed.

(** No credential in the environment, or an empty one. *)
Lemma transcribeMedia_no_credential_witness :
  JS.truthy None = false /\
  Client.run (Client.transcribeMedia None (Sample.answering (Some "Hello world"%string))
                "QUJD" "audio/mp3" (Some true))
  = (Client.Throw (JS.Error Client.api_key_missing), Client.quiet) /\
  Client.run (Client.transcribeMedia (Some ""%string)
                (Sample.answering (Some "Hello world"%string))
                "QUJD" "audio/mp3" (Some true))
  = (Client.Throw (JS.Error Client.api_key_missing), Client.quiet).
Proof.
  split; [reflexivity|]. split.
  - apply (proj1 (@transcribeMedia_no_credential None
             (Sample.answering (Some "Hello world"%string))
             "QUJD" "audio/mp3" (Some true) eq_refl)).
  - apply (proj1 (@transcribeMedia_no_credential (Some ""%string)
             (Sample.answering (Some "Hello world"%string))
             "QUJD" "audio/mp3" (Some true) eq_refl)).
Defined.

(** An empty payload; a payload of 699050667 characters, the shortest
    one above the limit: its implied size is 524288000.25 bytes. *)
Lemma transcribeMedia_invalid_input_witness :
  Client.run (Client.transcribeMedia (Some "key"%string)
                (Sample.answering (Some "Hello world"%string))
                "" "audio/mp3" (Some true))
  = (Client.Throw (JS.Error Client.media_missing), Client.quiet) /\
  (Client.limit < Client.byteLength (Sample.payload_of_length 699050667))%Q /\
  Client.run (Client.transcribeMedia (Some "key"%string)
                (Sample.answering (Some "Hello world"%string))
                (Sample.payload_of_length 699050667) "audio/mp3" (Some true))
  = (Client.Throw (JS.Error Client.too_large), Client.quiet).
Proof.
  assert (Hbig : (Client.limit
                  < Client.byteLength (Sample.payload_of_length 699050667))%Q).
  { rewrite byteLength_payload_of_length. reflexivity. }
  split; [|split; [exact Hbig|]].
  - apply (proj1 (@transcribeMedia_invalid_input (Some "key"%string)
             (Sample.answering (Some "Hello world"%string))
             "" "audio/mp3" (Some true) eq_refl) eq_refl).
  - apply (proj2 (@transcribeMedia_invalid_input (Some "key"%string)
             (Sample.answering (Some "Hello world"%string))
             (Sample.payload_of_length 699050667) "audio/mp3" (Some true)
             eq_refl) Hbig).
Defined.

(** ** The transcription client: the round trip *)

Section RoundTrip.

Import JS Client.
Open Scope string_scope.

Variable API_KEY : option string.
Variable remote : Remote.
Variable base64Data mimeType : string.
Variable includeTimestamps : option bool.

(** The three checks pass: the call reaches request construction. *)
Hypothesis Hkey : truthy API_KEY = true.
Hypothesis Hdata : base64Data <> "".
Hypothesis Hsize : (byteLength base64Data <= limit)%Q.

Let sent : Request :=
  request base64Data mimeType (withDefault includeTimestamps true).

Let call : M string :=
  transcribeMedia API_KEY remote base64Data mimeType includeTimestamps.

Lemma call_unfold (w : World) :
  call w =
  try_catch
    (response <- generateContent remote sent ;;
     match response_text response with
     | Some (String _ _ as t) => ret t
     | _ => throw (object (Error empty_response))
     end)
    (fun error =>
       console_error error ;;;
       match error with
       | thrown_null => throw (Error message_of_null)
       | thrown_undefined => throw (Error message_of_undefined)
       | odd_message => throw (Error includes_not_a_function)
       | no_text => throw (Error includes_of_undefined)
       | object error =>
           let errorStr := or_else (message error) (json error) in
           if marked errorStr
           then throw (Error media_rejected)
           else throw (Error (or_else (message error) communication_error))
       end) w.
Proof using Hkey Hdata Hsize.
  unfold call, transcribeMedia.
  destruct (@or_else_truthy API_KEY "" Hkey) as [_ ->].
  destruct base64Data as [|c s]; [contradiction|].
  cbn [truthy negb].
  rewrite (proj2 (gt_false _ _) Hsize). reflexivity.
Qed.

(** The service answers with a text: the call returns it. *)
Lemma call_answered (w : World) (r : Response) (c : ascii) (s : string) :
  remote sent = Answers r ->
  response_text r = Some (String c s) ->
  call w = (Return (String c s),
            {| requests := requests w ++ [sent]; console := console w |}).
Proof using Hkey Hdata Hsize.
  intros Hr Ht. rewrite call_unfold.
  unfold try_catch, bind, generateContent. rewrite Hr, Ht. reflexivity.
Qed.

(** The service answers with no text, or an empty one. *)
Lemma call_answered_empty (w : World) (r : Response) :
  remote sent = Answers r ->
  truthy (response_text r) = false ->
  call w = (Throw (Error empty_response),
            {| requests := requests w ++ [sent];
               console := console w ++ [object (Error empty_response)] |}).
Proof using Hkey Hdata Hsize.
  intros Hr Ht. rewrite call_unfold.
  unfold try_catch, bind, generateContent. rewrite Hr.
  destruct (response_text r) as [[|c s]|]; try discriminate; reflexivity.
Qed.

(** The service fails: whatever it throws is logged, and the call ends
    with the error of the [catch]. *)
Lemma call_failed (w : World) (v : Thrown) :
  remote sent = Fails v ->
  call w =
  (Throw (Error (rethrown v)),
   {| requests := requests w ++ [sent]; console := console w ++ [v] |}).
Proof using Hkey Hdata Hsize.
  intros Hr. rewrite call_unfold.
  unfold try_catch, bind, generateContent, console_error. rewrite Hr.
  destruct v as [e| | | |]; cbn; try reflexivity.
  destruct (marked _); reflexivity.
Qed.

(** Exactly one request goes out. *)
Lemma call_requests (w : World) :
  requests (snd (call w)) = (requests w ++ [sent])%list.
Proof using Hkey Hdata Hsize.
  destruct (remote sent) as [r|e] eqn:Hr.
  - destruct (response_text r) as [[|c s]|] eqn:Ht.
    + rewrite (@call_answered_empty w r Hr); [reflexivity|now rewrite Ht].
    + rewrite (@call_answered w r c s Hr Ht). reflexivity.
    + rewrite (@call_answered_empty w r Hr); [reflexivity|now rewrite Ht].
  - rewrite (@call_failed w e Hr). reflexivity.
Qed.

End RoundTrip.

(** ** The transcription client: every call *)

Section EveryCall.

Import JS Client.
Open Scope string_scope.

Variable API_KEY : option string.
Variable remote : Remote.
Variable base64Data mimeType : string.
Variable includeTimestamps : option bool.

Let sent : Request :=
  request base64Data mimeType (withDefault includeTimestamps true).

Let call : M string :=
  transcribeMedia API_KEY remote base64Data mimeType includeTimestamps.

(** A call stops at one of the three checks, or it passes them all. *)
Lemma call_cases (w : World) :
  (exists msg, call w = (Throw (Error msg), w) /\
               In msg [api_key_missing; media_missing; too_large]) \/
  (truthy API_KEY = true /\ base64Data <> "" /\
   (byteLength base64Data <= limit)%Q).
Proof.
  destruct (truthy API_KEY) eqn:Hkey.
  - destruct (string_dec base64Data "") as [Hdata|Hdata].
    + left. exists media_missing. split; [|cbn; auto].
      now apply stops_on_empty_payload.
    + destruct (gt (byteLength base64Data) limit) eqn:Hgt.
      * left. exists too_large. split; [|cbn; auto].
        apply stops_on_large_payload; [assumption|now apply gt_true].
      * right. repeat split; auto. now apply gt_false.
  - left. exists api_key_missing. split; [|cbn; auto].
    now apply stops_without_credential.
Qed.

(** A call sends at most one request, the one built from its
    arguments. *)
Lemma call_sends (w : World) :
  requests (snd (call w)) = requests w \/
  requests (snd (call w)) = (requests w ++ [sent])%list.
Proof.
  destruct (call_cases w) as [(msg & -> & _)|(Hkey & Hdata & Hsize)].
  - left. reflexivity.
  - right. apply call_requests; assumption.
Qed.

(** A call that returns, returns a text that is not empty. *)
Lemma call_returns_text (w : World) (t : string) :
  fst (call w) = Return t -> t <> "".
Proof.
  destruct (call_cases w) as [(msg & -> & _)|(Hkey & Hdata & Hsize)];
    [discriminate|].
  destruct (remote sent) as [r|e] eqn:Hr.
  - destruct (response_text r) as [[|c s]|] eqn:Ht.
    + unfold call.
      rewrite (@call_answered_empty API_KEY remote base64Data mimeType
                 includeTimestamps Hkey Hdata Hsize w r Hr);
        [discriminate|now rewrite Ht].
    + unfold call.
      rewrite (@call_answered API_KEY remote base64Data mimeType
                 includeTimestamps Hkey Hdata Hsize w r c s Hr Ht).
      cbn. intros [= <-]. discriminate.
    + unfold call.
      rewrite (@call_answered_empty API_KEY remote base64Data mimeType
                 includeTimestamps Hkey Hdata Hsize w r Hr);
        [discriminate|now rewrite Ht].
  - unfold call.
    rewrite (@call_failed API_KEY remote base64Data mimeType
               includeTimestamps Hkey Hdata Hsize w e Hr).
    discriminate.
Qed.

End EveryCall.

(** ** The transcription client: the claims about a call *)

Section Messages.

Import JS Client.
Open Scope string_scope.

Lemma Error_neq (a b : string) : String.eqb a b = false -> Error a <> Error b.
Proof. intros H [= E]. apply String.eqb_neq in H. contradiction. Qed.

Lemma Throw_Error_neq (A : Type) (a b : string) :
  a <> b -> @Throw JsError A (Error a) <> Throw (Error b).
Proof. intros H [= E]. contradiction. Qed.

(** The empty-response message is none of the other texts that
    [transcribeMedia] writes. *)
Lemma empty_response_distinct (msg : string) :
  In msg [api_key_missing; media_missing; too_large; media_rejected;
          communication_error] ->
  Error empty_response <> Error msg.
Proof.
  cbn [In]. intros [<-|[<-|[<-|[<-|[<-|[]]]]]]; apply Error_neq; reflexivity.
Qed.

(** What the [catch] throws is the empty-response message only for a
    caught object that carries this very message. *)
Lemma rethrown_empty_response (v : Thrown) :
  rethrown v = empty_response ->
  exists e, v = object e /\ message e = Some empty_response.
Proof.
  destruct v as [e| | | |]; cbn [rethrown];
    try (intros H; apply String.eqb_eq in H; discriminate).
  intros H. exists e. split; [reflexivity|].
  destruct (marked _); [apply String.eqb_eq in H; discriminate|].
  destruct (message e) as [[|c s]|]; cbn [or_else] in H.
  - apply String.eqb_eq in H. discriminate.
  - now rewrite H.
  - apply String.eqb_eq in H. discriminate.
Qed.

End Messages.

(** C5, as the code has it: when the round trip succeeds and the
    response carries no text or an empty one, [transcribeMedia] does
    not return: it throws the error with the empty-response message,
    after one request.  That message differs from the message of every
    other error the function composes itself (missing key, missing
    media, too large, media rejected, generic communication error).
    The error is thrown inside the [try] and passes through the [catch]
    like a failure of the service, so a failure of the service is told
    apart from it only as long as the value thrown is not an object
    that carries this very message.  Whenever a call returns, the text
    it returns is not empty. *)
Theorem transcribeMedia_empty_response
        (API_KEY : option string) (remote : Client.Remote)
        (base64Data mimeType : string) (includeTimestamps : option bool) :
  let call :=
    Client.transcribeMedia API_KEY remote base64Data mimeType includeTimestamps in
  let sent :=
    Client.request base64Data mimeType
                   (Client.withDefault includeTimestamps true) in
  (JS.truthy API_KEY = true -> base64Data <> ""%string ->
   (Client.byteLength base64Data <= Client.limit)%Q ->
   forall r, remote sent = Client.Answers r ->
             JS.truthy (Client.response_text r) = false ->
             fst (Client.run call) = Client.Throw (JS.Error Client.empty_response) /\
             Client.requests (snd (Client.run call)) = [sent]) /\
  (forall w t, fst (call w) = Client.Return t -> t <> ""%string) /\
  (forall msg,
      In msg [Client.api_key_missing; Client.media_missing; Client.too_large;
              Client.media_rejected; Client.communication_error] ->
      JS.Error Client.empty_response <> JS.Error msg) /\
  (forall w v, remote sent = Client.Fails v ->
               (forall e, v = JS.object e ->
                          JS.message e <> Some Client.empty_response) ->
               fst (call w) <> Client.Throw (JS.Error Client.empty_response)).
Proof.
  intros call sent. split; [|split; [|split]].
  - intros Hkey Hdata Hsize r Hr Ht. unfold Client.run, call.
    rewrite (@call_answered_empty API_KEY remote base64Data mimeType
               includeTimestamps Hkey Hdata Hsize Client.quiet r Hr Ht).
    split; reflexivity.
  - intros w t. apply call_returns_text.
  - apply empty_response_distinct.
  - intros w v Hv Hm.
    destruct (@call_cases API_KEY remote base64Data mimeType includeTimestamps w)
      as [(msg & E & Hin)|(Hkey & Hdata & Hsize)].
    + unfold call. rewrite E. cbn [fst]. intros [= H].
      apply (@empty_response_distinct msg); [|now rewrite H].
      cbn [In] in *. tauto.
    + unfold call.
      rewrite (@call_failed API_KEY remote base64Data mimeType
                 includeTimestamps Hkey Hdata Hsize w v Hv).
      cbn [fst]. apply Throw_Error_neq. intros H.
      destruct (rethrown_empty_response v H) as (e & -> & He).
      exact (Hm e eq_refl He).
Qed.

(** A service that answers with an empty text, and one that answers
    with none. *)
Lemma transcribeMedia_empty_response_witness :
  (fst (Client.run (Client.transcribeMedia (Some "key"%string)
                      (Sample.answering (Some ""%string))
                      "QUJD" "audio/mp3" (Some true)))
   = Client.Throw (JS.Error Client.empty_response) /\
   Client.requests
     (snd (Client.run (Client.transcribeMedia (Some "key"%string)
                         (Sample.answering (Some ""%string))
                         "QUJD" "audio/mp3" (Some true))))
   = [Client.request "QUJD" "audio/mp3" true]) /\
  (fst (Client.run (Client.transcribeMedia (Some "key"%string)
                      (Sample.answering None)
                      "QUJD" "video/mp4" None))
   = Client.Throw (JS.Error Client.empty_response) /\
   Client.requests
     (snd (Client.run (Client.transcribeMedia (Some "key"%string)
                         (Sample.answering None)
                         "QUJD" "video/mp4" None)))
   = [Client.request "QUJD" "video/mp4" true]).
Proof.
  split.
  - apply (proj1 (@transcribeMedia_empty_response (Some "key"%string)
                    (Sample.answering (Some ""%string))
                    "QUJD" "audio/mp3" (Some true))
             eq_refl ltac:(discriminate) ltac:(vm_compute; discriminate)
             {| Client.response_text := Some ""%string |} eq_refl eq_refl).
  - apply (proj1 (@transcribeMedia_empty_response (Some "key"%string)
                    (Sample.answering None)
                    "QUJD" "video/mp4" None)
             eq_refl ltac:(discriminate) ltac:(vm_compute; discriminate)
             {| Client.response_text := None |} eq_refl eq_refl).
Defined.

(** C5, as the claim words it, does not hold: the empty-response error
    cannot be told from every other failure.  A call whose round trip
    fails with an error that carries the empty-response text ends
    exactly as a call whose round trip succeeds with no text: the same
    error is thrown, the same request was sent and the same entry is on
    the console. *)
Lemma empty_response_like_a_failure :
  Client.run (Client.transcribeMedia (Some "key"%string)
                (Sample.failing (JS.Error Client.empty_response))
                "QUJD" "audio/mp3" (Some true))
  = Client.run (Client.transcribeMedia (Some "key"%string)
                  (Sample.answering None)
                  "QUJD" "audio/mp3" (Some true)) /\
  fst (Client.run (Client.transcribeMedia (Some "key"%string)
                     (Sample.failing (JS.Error Client.empty_response))
                     "QUJD" "audio/mp3" (Some true)))
  = Client.Throw (JS.Error Client.empty_response).
Proof. split; reflexivity. Qed.

(** The specification's example: the service answers [Hello world]. *)
Example transcribeMedia_hello_world :
  Client.run (Client.transcribeMedia (Some "key"%string)
                (Sample.answering (Some "Hello world"%string))
                "QUJD" "audio/mp3" (Some true))
  = (Client.Return "Hello world"%string,
     {| Client.requests := [Client.request "QUJD" "audio/mp3" true];
        Client.console := [] |}).
Proof. reflexivity. Qed.

(** C6, as the code has it.  Whatever the round trip throws is logged
    once.  For a thrown value whose message is a string or absent and
    which has a JSON text, the [catch] goes by the message or, when the
    message is absent or empty, by the JSON text: if that text contains
    [Invalid video data] or [INVALID_ARGUMENT], the call throws the
    media-rejected error, with its advice to use a standard MP3 or a
    smaller MP4 clip; otherwise it throws an error that carries the
    message, or the generic communication-error text when there is no
    message.  For a thrown [null] or [undefined], for a message that is
    not a string, and for a value with no message and no JSON text, the
    [catch] itself fails and the call throws the TypeError of the
    engine. *)
Theorem transcribeMedia_failure_mapping
        (API_KEY : option string) (remote : Client.Remote)
        (base64Data mimeType : string) (includeTimestamps : option bool)
        (v : JS.Thrown) :
  JS.truthy API_KEY = true -> base64Data <> ""%string ->
  (Client.byteLength base64Data <= Client.limit)%Q ->
  remote (Client.request base64Data mimeType
                         (Client.withDefault includeTimestamps true))
  = Client.Fails v ->
  let result :=
    Client.run (Client.transcribeMedia API_KEY remote base64Data mimeType
                                       includeTimestamps) in
  let names_rejection (text : string) :=
    JS.includes text "Invalid video data"
    || JS.includes text "INVALID_ARGUMENT" in
  Client.console (snd result) = [v] /\
  match v with
  | JS.object e =>
      match JS.message e with
      | Some (String c m) =>
          fst result
          = Client.Throw
              (JS.Error (if names_rejection (String c m)
                         then Client.media_rejected else String c m))
      | _ =>
          fst result
          = Client.Throw
              (JS.Error (if names_rejection (JS.json e)
                         then Client.media_rejected
                         else "An error occurred while communicating with the Gemini API."))
      end
  | JS.thrown_null =>
      fst result = Client.Throw (JS.Error JS.message_of_null)
  | JS.thrown_undefined =>
      fst result = Client.Throw (JS.Error JS.message_of_undefined)
  | JS.no_text =>
      fst result = Client.Throw (JS.Error JS.includes_of_undefined)
  | JS.odd_message =>
      fst result = Client.Throw (JS.Error JS.includes_not_a_function)
  end /\
  JS.includes Client.media_rejected
              "Try using a standard MP3 or a smaller MP4 clip." = true.
Proof.
  intros Hkey Hdata Hsize Hv result names_rejection. unfold result, Client.run.
  rewrite (@call_failed API_KEY remote base64Data mimeType includeTimestamps
             Hkey Hdata Hsize Client.quiet v Hv).
  cbn [fst snd Client.console Client.quiet app].
  split; [reflexivity|]. split; [|reflexivity].
  destruct v as [e| | | |]; try reflexivity.
  cbn [Client.rethrown].
  destruct (JS.message e) as [[|c m]|]; reflexivity.
Qed.

(** A failure whose message names the invalid argument, one whose
    message names the invalid video data, one with an ordinary message,
    one without a message, and a thrown [null]. *)
Lemma transcribeMedia_failure_mapping_witness :
  fst (Client.run (Client.transcribeMedia (Some "key"%string)
         (Sample.failing (JS.Error "400 INVALID_ARGUMENT: bad request"))
         "QUJD" "audio/mp3" (Some true)))
  = Client.Throw (JS.Error Client.media_rejected) /\
  fst (Client.run (Client.transcribeMedia (Some "key"%string)
         (Sample.failing (JS.Error "Invalid video data in part 1"))
         "QUJD" "video/mp4" (Some true)))
  = Client.Throw (JS.Error Client.media_rejected) /\
  fst (Client.run (Client.transcribeMedia (Some "key"%string)
         (Sample.failing (JS.Error "fetch failed"))
         "QUJD" "audio/mp3" (Some true)))
  = Client.Throw (JS.Error "fetch failed") /\
  fst (Client.run (Client.transcribeMedia (Some "key"%string)
         (Sample.failing {| JS.message := None; JS.json := "{}" |})
         "QUJD" "audio/mp3" (Some true)))
  = Client.Throw (JS.Error Client.communication_error) /\
  fst (Client.run (Client.transcribeMedia (Some "key"%string)
         (Fixture.throwing JS.thrown_null)
         "QUJD" "audio/mp3" (Some true)))
  = Client.Throw (JS.Error JS.message_of_null).
Proof.
  split; [|split; [|split; [|split]]].
  - apply (proj1 (proj2 (@transcribeMedia_failure_mapping (Some "key"%string)
             (Sample.failing (JS.Error "400 INVALID_ARGUMENT: bad request"))
             "QUJD" "audio/mp3" (Some true)
             (JS.object (JS.Error "400 INVALID_ARGUMENT: bad request"))
             eq_refl ltac:(discriminate) ltac:(vm_compute; discriminate)
             eq_refl))).
  - apply (proj1 (proj2 (@transcribeMedia_failure_mapping (Some "key"%string)
             (Sample.failing (JS.Error "Invalid video data in part 1"))
             "QUJD" "video/mp4" (Some true)
             (JS.object (JS.Error "Invalid video data in part 1"))
             eq_refl ltac:(discriminate) ltac:(vm_compute; discriminate)
             eq_refl))).
  - apply (proj1 (proj2 (@transcribeMedia_failure_mapping (Some "key"%string)
             (Sample.failing (JS.Error "fetch failed"))
             "QUJD" "audio/mp3" (Some true)
             (JS.object (JS.Error "fetch failed"))
             eq_refl ltac:(discriminate) ltac:(vm_compute; discriminate)
             eq_refl))).
  - apply (proj1 (proj2 (@transcribeMedia_failure_mapping (Some "key"%string)
             (Sample.failing {| JS.message := None; JS.json := "{}" |})
             "QUJD" "audio/mp3" (Some true)
             (JS.object {| JS.message := None; JS.json := "{}" |})
             eq_refl ltac:(discriminate) ltac:(vm_compute; discriminate)
             eq_refl))).
  - apply (proj1 (proj2 (@transcribeMedia_failure_mapping (Some "key"%string)
             (Fixture.throwing JS.thrown_null)
             "QUJD" "audio/mp3" (Some true) JS.thrown_null
             eq_refl ltac:(discriminate) ltac:(vm_compute; discriminate)
             eq_refl))).
Defined.

(** C6, as the claim words it, does not hold of every failure.  A
    thrown object without a message whose JSON text names
    [INVALID_ARGUMENT] gives the media-rejected error although its
    message indicates nothing; a failure with an empty message and
    nothing in its JSON text gives the communication-error text, which
    is not the underlying message; and a thrown [null] gives the
    TypeError of the engine, which is neither. *)
Lemma transcribeMedia_failure_without_message :
  let e0 := {| JS.message := None;
               JS.json := Sample.json_status "INVALID_ARGUMENT" |} in
  let e1 := {| JS.message := Some ""%string; JS.json := "{}" |} in
  (JS.message e0 = None /\
   fst (Client.run (Client.transcribeMedia (Some "key"%string)
                      (Sample.failing e0) "QUJD" "audio/mp3" (Some true)))
   = Client.Throw (JS.Error Client.media_rejected)) /\
  (fst (Client.run (Client.transcribeMedia (Some "key"%string)
                      (Sample.failing e1) "QUJD" "audio/mp3" (Some true)))
   = Client.Throw (JS.Error Client.communication_error) /\
   JS.message (JS.Error Client.communication_error) <> JS.message e1) /\
  fst (Client.run (Client.transcribeMedia (Some "key"%string)
                     (Fixture.throwing JS.thrown_null)
                     "QUJD" "audio/mp3" (Some true)))
  = Client.Throw (JS.Error JS.message_of_null).
Proof.
  cbv zeta. split; [split; reflexivity|]. split; [|reflexivity].
  split; [reflexivity|discriminate].
Qed.

(** ** The instruction text *)

Section Instruction.

Import JS Client.
Open Scope string_scope.

(** The text names [video] or [audio] by the prefix of the MIME type
    and nothing else of it. *)
Lemma instruction_kind (mimeType : string) (ts : bool) :
  let t := instruction mimeType ts in
  if startsWith mimeType "video"
  then includes t "Carefully transcribe the following video file." = true
       /\ includes t "audio" = false
  else includes t "Carefully transcribe the following audio file." = true
       /\ includes t "video" = false.
Proof.
  unfold instruction.
  destruct (startsWith mimeType "video"); destruct ts;
    split; vm_compute; reflexivity.
Qed.

Lemma instruction_timestamps (mimeType : string) (ts : bool) :
  let t := instruction mimeType ts in
  if ts
  then includes t "Include timestamps in [HH:MM:SS] format at the beginning of each paragraph or when a new speaker starts." = true
       /\ includes t "Ensure they are accurate to the media's timeline." = true
       /\ includes t "Do not include" = false
  else includes t "Do not include any timestamps." = true
       /\ includes t "[HH:MM:SS]" = false
       /\ includes t "Include timestamps" = false.
Proof.
  unfold instruction.
  destruct (startsWith mimeType "video"); destruct ts;
    repeat split; vm_compute; reflexivity.
Qed.

End Instruction.

(** C7: a call that passes the three checks sends one request, whose
    parts are the payload tagged with the MIME type and the instruction
    text.  The text names the media kind as video exactly when the MIME
    type starts with [video], and as audio otherwise.  When the caller
    passes [true] for the timestamp flag, or leaves it out, the text
    asks for timestamps in [HH:MM:SS] format at the beginning of each
    paragraph or when a new speaker starts, accurate to the media's
    timeline; when the caller passes [false], it says not to include
    any timestamps. *)
Theorem transcribeMedia_instruction
        (API_KEY : option string) (remote : Client.Remote)
        (base64Data mimeType : string) (includeTimestamps : option bool) :
  JS.truthy API_KEY = true -> base64Data <> ""%string ->
  (Client.byteLength base64Data <= Client.limit)%Q ->
  exists t,
    Client.requests
      (snd (Client.run (Client.transcribeMedia API_KEY remote base64Data
                                               mimeType includeTimestamps)))
    = [ {| Client.model := "gemini-3-flash-preview";
           Client.parts := [Client.inlineData mimeType base64Data;
                            Client.text t] |} ] /\
    (if JS.startsWith mimeType "video"
     then JS.includes t "Carefully transcribe the following video file." = true
          /\ JS.includes t "audio" = false
     else JS.includes t "Carefully transcribe the following audio file." = true
          /\ JS.includes t "video" = false) /\
    match includeTimestamps with
    | Some false =>
        JS.includes t "Do not include any timestamps." = true
        /\ JS.includes t "[HH:MM:SS]" = false
        /\ JS.includes t "Include timestamps" = false
    | Some true | None =>
        JS.includes t "Include timestamps in [HH:MM:SS] format at the beginning of each paragraph or when a new speaker starts." = true
        /\ JS.includes t "Ensure they are accurate to the media's timeline." = true
        /\ JS.includes t "Do not include" = false
    end.
Proof.
  intros Hkey Hdata Hsize.
  exists (Client.instruction mimeType
            (Client.withDefault includeTimestamps true)).
  split; [|split].
  - unfold Client.run.
    rewrite (@call_requests API_KEY remote base64Data mimeType
               includeTimestamps Hkey Hdata Hsize Client.quiet).
    reflexivity.
  - apply instruction_kind.
  - destruct includeTimestamps as [[|]|]; cbn [Client.withDefault].
    + apply (instruction_timestamps mimeType true).
    + apply (instruction_timestamps mimeType false).
    + apply (instruction_timestamps mimeType true).
Qed.

(** A video with the flag set, an audio file with the flag cleared, and
    an audio file with the flag left out. *)
Lemma transcribeMedia_instruction_witness :
  (exists t,
      Client.requests
        (snd (Client.run (Client.transcribeMedia (Some "key"%string)
                            (Sample.answering (Some "Hello world"%string))
                            "QUJD" "video/mp4" (Some true))))
      = [ {| Client.model := "gemini-3-flash-preview";
             Client.parts := [Client.inlineData "video/mp4" "QUJD";
                              Client.text t] |} ] /\
      (JS.includes t "Carefully transcribe the following video file." = true
       /\ JS.includes t "audio" = false) /\
      (JS.includes t "Include timestamps in [HH:MM:SS] format at the beginning of each paragraph or when a new speaker starts." = true
       /\ JS.includes t "Ensure they are accurate to the media's timeline." = true
       /\ JS.includes t "Do not include" = false)) /\
  (exists t,
      Client.requests
        (snd (Client.run (Client.transcribeMedia (Some "key"%string)
                            (Sample.answering (Some "Hello world"%string))
                            "QUJD" "audio/mpeg" (Some false))))
      = [ {| Client.model := "gemini-3-flash-preview";
             Client.parts := [Client.inlineData "audio/mpeg" "QUJD";
                              Client.text t] |} ] /\
      (JS.includes t "Carefully transcribe the following audio file." = true
       /\ JS.includes t "video" = false) /\
      (JS.includes t "Do not include any timestamps." = true
       /\ JS.includes t "[HH:MM:SS]" = false
       /\ JS.includes t "Include timestamps" = false)) /\
  (exists t,
      Client.requests
        (snd (Client.run (Client.transcribeMedia (Some "key"%string)
                            (Sample.answering (Some "Hello world"%string))
                            "QUJD" "audio/mpeg" None)))
      = [ {| Client.model := "gemini-3-flash-preview";
             Client.parts := [Client.inlineData "audio/mpeg" "QUJD";
                              Client.text t] |} ] /\
      (JS.includes t "Carefully transcribe the following audio file." = true
       /\ JS.includes t "video" = false) /\
      (JS.includes t "Include timestamps in [HH:MM:SS] format at the beginning of each paragraph or when a new speaker starts." = true
       /\ JS.includes t "Ensure they are accurate to the media's timeline." = true
       /\ JS.includes t "Do not include" = false)).
Proof.
  split; [|split].
  - apply (@transcribeMedia_instruction (Some "key"%string)
             (Sample.answering (Some "Hello world"%string))
             "QUJD" "video/mp4" (Some true)
             eq_refl ltac:(discriminate) ltac:(vm_compute; discriminate)).
  - apply (@transcribeMedia_instruction (Some "key"%string)
             (Sample.answering (Some "Hello world"%string))
             "QUJD" "audio/mpeg" (Some false)
             eq_refl ltac:(discriminate) ltac:(vm_compute; discriminate)).
  - apply (@transcribeMedia_instruction (Some "key"%string)
             (Sample.answering (Some "Hello world"%string))
             "QUJD" "audio/mpeg" None
             eq_refl ltac:(discriminate) ltac:(vm_compute; discriminate)).
Defined.

(** The four instruction texts are told apart by kind and by flag. *)
Example instruction_samples :
  JS.includes (Client.instruction "audio/mpeg" false)
              "following audio file" = true /\
  JS.includes (Client.instruction "audio/mpeg" false)
              "Do not include any timestamps." = true /\
  JS.includes (Client.instruction "video/mp4" false)
              "following video file" = true /\
  JS.includes (Client.instruction "application/video" true)
              "following audio file" = true.
Proof. repeat split; reflexivity. Qed.

(** C10: a call without the third argument is the call with the flag
    set: the default of [includeTimestamps] is [true].  Every request
    such a call sends asks for timestamps. *)
Theorem transcribeMedia_default_timestamps
        (API_KEY : option string) (remote : Client.Remote)
        (base64Data mimeType : string) :
  Client.transcribeMedia API_KEY remote base64Data mimeType None
  = Client.transcribeMedia API_KEY remote base64Data mimeType (Some true) /\
  Forall (fun r =>
            exists t,
              Client.parts r = [Client.inlineData mimeType base64Data;
                                Client.text t] /\
              JS.includes t "Include timestamps in [HH:MM:SS] format" = true /\
              JS.includes t "Do not include any timestamps." = false)
         (Client.requests
            (snd (Client.run (Client.transcribeMedia API_KEY remote base64Data
                                                     mimeType None)))).
Proof.
  split; [reflexivity|].
  destruct (@call_sends API_KEY remote base64Data mimeType None Client.quiet)
    as [E|E]; unfold Client.run; rewrite E; cbn [Client.quiet Client.requests app].
  - constructor.
  - constructor; [|constructor].
    exists (Client.instruction mimeType true). split; [reflexivity|].
    unfold Client.instruction.
    destruct (JS.startsWith mimeType "video"); split; vm_compute; reflexivity.
Qed.

(** A call without the flag sends the request of a call with it. *)
Lemma transcribeMedia_default_timestamps_witness :
  Client.requests
    (snd (Client.run (Client.transcribeMedia (Some "key"%string)
                        (Sample.answering (Some "Hello world"%string))
                        "QUJD" "audio/mp3" None)))
  = [Client.request "QUJD" "audio/mp3" true].
Proof.
  rewrite (proj1 (@transcribeMedia_default_timestamps (Some "key"%string)
                    (Sample.answering (Some "Hello world"%string))
                    "QUJD" "audio/mp3")).
  reflexivity.
Defined.

(** ** The application status *)

Section Status.

Import JS Types App.

Lemma AppStatus_values_complete (a : AppStatus) : In a AppStatus_values.
Proof. destruct a; cbn; auto. Qed.

Lemma AppStatus_values_NoDup : NoDup AppStatus_values.
Proof.
  unfold AppStatus_values.
  repeat (constructor; [cbn; intuition discriminate|]). constructor.
Qed.

(** Five things cannot be told apart by a status. *)
Lemma five_into_AppStatus (f : Spec.AppState -> AppStatus) :
  exists a b, a <> b /\ f a = f b.
Proof.
  destruct (f Spec.Idle) eqn:E1, (f Spec.Preparing) eqn:E2,
           (f Spec.Processing) eqn:E3, (f Spec.Success) eqn:E4,
           (f Spec.Error) eqn:E5;
    first
      [ exists Spec.Idle, Spec.Preparing; split; [discriminate|congruence]
      | exists Spec.Idle, Spec.Processing; split; [discriminate|congruence]
      | exists Spec.Idle, Spec.Success; split; [discriminate|congruence]
      | exists Spec.Idle, Spec.Error; split; [discriminate|congruence]
      | exists Spec.Preparing, Spec.Processing; split; [discriminate|congruence]
      | exists Spec.Preparing, Spec.Success; split; [discriminate|congruence]
      | exists Spec.Preparing, Spec.Error; split; [discriminate|congruence]
      | exists Spec.Processing, Spec.Success; split; [discriminate|congruence]
      | exists Spec.Processing, Spec.Error; split; [discriminate|congruence]
      | exists Spec.Success, Spec.Error; split; [discriminate|congruence] ].
Qed.

End Status.

(** C8, as the code has it: [AppStatus] is an enumeration of exactly the
    four values IDLE, PROCESSING, SUCCESS and ERROR, and a state of the
    component holds one of them.  Preparing is not a status: it is the
    boolean [isPreparing], which [handleFileSelect] sets while it sets
    the status to IDLE and clears when the encoding has settled.  The
    status changes in the handlers only: the timestamp toggle and the
    end of the encoding leave it as it is. *)
Theorem AppStatus_enumeration :
  (forall a : Types.AppStatus, In a Types.AppStatus_values) /\
  NoDup Types.AppStatus_values /\
  List.length Types.AppStatus_values = 4%nat /\
  (forall es, In (App.status (fst (App.run App.initial es)))
                 Types.AppStatus_values) /\
  (forall s f,
      App.status (fst (App.handleFileSelect s f)) = Types.IDLE /\
      App.isPreparing (fst (App.handleFileSelect s f)) = true) /\
  (forall s f url r,
      App.status (App.handleFileSelect_resume s f url r) = App.status s /\
      App.isPreparing (App.handleFileSelect_resume s f url r) = false) /\
  (forall s, App.status (App.toggleTimestamps s) = App.status s).
Proof.
  split; [exact AppStatus_values_complete|].
  split; [exact AppStatus_values_NoDup|].
  split; [reflexivity|].
  split; [intros es; apply AppStatus_values_complete|].
  split; [intros s f; split; reflexivity|].
  split; [|reflexivity].
  intros s f url [b64|err]; split; reflexivity.
Qed.

(** C8, as the claim words it, does not hold: the four values are all
    there is of [AppStatus], so no assignment of a status to the five
    states of the specification keeps them apart; and the flag is not
    exclusive of the status: after a reset during transcription and a
    new selection, the late transcription sets SUCCESS while
    [isPreparing] is still set, through events the page offers. *)
Lemma AppStatus_has_four_values :
  (forall a : Types.AppStatus,
      In a [Types.IDLE; Types.PROCESSING; Types.SUCCESS; Types.ERROR]) /\
  (forall f : Spec.AppState -> Types.AppStatus,
      exists a b, a <> b /\ f a = f b) /\
  (let es := (Sample.until_processing ++
              [App.ClickReset; App.SelectFile Sample.clip;
               App.Transcribed (JS.Resolved "Hello world"%string)])%list in
   App.all_offered App.initial es = true /\
   App.status (fst (App.run App.initial es)) = Types.SUCCESS /\
   App.isPreparing (fst (App.run App.initial es)) = true).
Proof.
  split; [exact AppStatus_values_complete|].
  split; [exact five_into_AppStatus|].
  cbv zeta. repeat split; reflexivity.
Qed.

(** ** Selecting a file during transcription *)

Section Selection.

Import JS Types App.

Lemma step_processing_has_file (s : State) (e : Event) :
  processing_has_file s -> processing_has_file (fst (step s e)).
Proof.
  unfold processing_has_file. intros I.
  destruct e as [f|f url [b64|err]| |[t|err]| |]; cbn; try discriminate; auto.
  unfold handleTranscribe.
  destruct (fileData s) as [fd|] eqn:Efd.
  - destruct (truthy (Some (base64 fd))); cbn; rewrite ?Efd;
      intros; discriminate.
  - cbn. intros H. specialize (I H). congruence.
Qed.

Lemma run_processing_has_file (es : list Event) (s : State) :
  processing_has_file s -> processing_has_file (fst (run s es)).
Proof.
  revert s. induction es as [|e es IH]; intros s I; [exact I|].
  cbn [run].
  destruct (step s e) as [s1 c1] eqn:E1.
  destruct (run s1 es) as [s2 c2] eqn:E2. cbn [fst].
  specialize (IH s1). rewrite E2 in IH. apply IH.
  pose proof (@step_processing_has_file s e I) as I1.
  now rewrite E1 in I1.
Qed.

Lemma initial_processing_has_file : processing_has_file initial.
Proof. discriminate. Qed.

End Selection.

(** C9, as the code has it: [handleFileSelect] has no guard.  When a
    file is selected in a state whose status is PROCESSING, the handler
    resets and proceeds: the status becomes IDLE with [isPreparing] set,
    file data, transcription and error message are cleared, and the only
    command it issues is the encoding of the new file, so it sends no
    transcription request.  What keeps a selection away during
    PROCESSING is the page: in every state reached from the initial one
    whose status is PROCESSING there is file data, so the upload control
    is not rendered, and the transcribe button is disabled. *)
Theorem handleFileSelect_while_processing
        (es : list App.Event) (f : Types.File) :
  let s := fst (App.run App.initial es) in
  App.status s = Types.PROCESSING ->
  let s' := fst (App.step s (App.SelectFile f)) in
  let cmds := snd (App.step s (App.SelectFile f)) in
  (App.status s' = Types.IDLE /\ App.isPreparing s' = true /\
   App.fileData s' = None /\ App.transcription s' = None /\
   App.errorMsg s' = None) /\
  (cmds = [App.fileToBase64 f] /\
   existsb App.is_transcribeMedia cmds = false) /\
  (App.offered s (App.SelectFile f) = false /\
   App.offered s App.ClickTranscribe = false).
Proof.
  intros s Hs s' cmds.
  split; [repeat split; reflexivity|].
  split; [split; reflexivity|].
  pose proof (@run_processing_has_file es App.initial
                initial_processing_has_file) as I.
  fold s in I. specialize (I Hs).
  cbn [App.offered]. unfold App.rendersFileUpload.
  destruct (App.fileData s); [|contradiction].
  rewrite Hs. split; reflexivity.
Qed.

(** A second file is selected while the first is being transcribed. *)
Lemma handleFileSelect_while_processing_witness :
  let s := fst (App.run App.initial Sample.until_processing) in
  let s' := fst (App.step s (App.SelectFile Sample.clip)) in
  let cmds := snd (App.step s (App.SelectFile Sample.clip)) in
  App.status s = Types.PROCESSING /\
  (App.status s' = Types.IDLE /\ App.isPreparing s' = true /\
   App.fileData s' = None /\ App.transcription s' = None /\
   App.errorMsg s' = None) /\
  (cmds = [App.fileToBase64 Sample.clip] /\
   existsb App.is_transcribeMedia cmds = false) /\
  (App.offered s (App.SelectFile Sample.clip) = false /\
   App.offered s App.ClickTranscribe = false).
Proof.
  split; [reflexivity|].
  apply (@handleFileSelect_while_processing Sample.until_processing
           Sample.clip eq_refl).
Defined.

(** C9, as the claim words it, does not hold: once a file is selected,
    encoded and its transcription started, the status is PROCESSING and
    one request is out; selecting another file then sets the status to
    IDLE. *)
Lemma file_selection_resets_processing :
  let s := fst (App.run App.initial Sample.until_processing) in
  App.status s = Types.PROCESSING /\
  snd (App.run App.initial Sample.until_processing)
  = [App.fileToBase64 Sample.song;
     App.transcribeMedia "QUJD" "audio/mpeg" true] /\
  App.status (fst (App.step s (App.SelectFile Sample.clip))) = Types.IDLE.
Proof. cbv zeta. repeat split; reflexivity. Qed.

(* ================================================================== *)
(** * Further properties of the code                                   *)
(* ================================================================== *)

(** ** The encoder *)

(** The chunk loop loses and repeats nothing at a chunk boundary: from
    any index and accumulator it appends one code unit per remaining
    byte, the byte's value; run over a whole buffer it gives as many
    code units as there are bytes, all below 256. *)
Theorem chunk_loop_keeps_every_byte
        (bytes : list byte) (i : N) (binary : list N) :
  Encoder.chunk_loop bytes i binary
  = (binary ++ map Byte.to_N (skipn (N.to_nat i) bytes))%list /\
  List.length (Encoder.chunk_loop bytes 0 []) = List.length bytes /\
  Forall (fun c => (c < 256)%N) (Encoder.chunk_loop bytes 0 []).
Proof.
  split; [apply chunk_loop_from|].
  rewrite chunk_loop_all. split; [apply length_map|apply to_N_octet].
Qed.

(** [fileToBase64] rejects with a message about the read only when the
    read fails or hands over no buffer.  For a buffer whose base64 text
    fits into a string of the engine the promise resolves, with a text
    that is empty exactly for the empty buffer, and the [catch] is not
    taken.  Only for a longer buffer does the promise reject with the
    conversion error of the [catch], or resolve with the text the
    engine's [btoa] returns instead. *)
Theorem fileToBase64_outcomes
        (File : Type) (engine : JS.Engine)
        (reader : File -> Encoder.ReadEvent) (file : File) :
  (reader file = Encoder.onerror /\
   Encoder.fileToBase64 engine reader file
   = JS.Rejected (JS.Error Encoder.read_error)) \/
  (reader file = Encoder.onload None /\
   Encoder.fileToBase64 engine reader file
   = JS.Rejected (JS.Error Encoder.read_failed)) \/
  (exists B,
      reader file = Encoder.onload (Some B) /\
      (((Base64.encoded_length (N.of_nat (List.length B))
         <= JS.maxStringLength engine)%N /\
        exists base64,
          Encoder.fileToBase64 engine reader file = JS.Resolved base64 /\
          (base64 = EmptyString <-> B = [])) \/
       ((JS.maxStringLength engine
         < Base64.encoded_length (N.of_nat (List.length B)))%N /\
        (Encoder.fileToBase64 engine reader file
         = JS.Rejected (JS.Error Encoder.convert_failed) \/
         exists instead,
           JS.btoa_overflow engine = Some instead /\
           Encoder.fileToBase64 engine reader file = JS.Resolved instead)))).
Proof.
  unfold Encoder.fileToBase64.
  destruct (reader file) as [[B|]|] eqn:E.
  - right. right. exists B. split; [reflexivity|].
    destruct (N.le_gt_cases
                (Base64.encoded_length (N.of_nat (List.length B)))
                (JS.maxStringLength engine)) as [Hfit|Hbig].
    + left. split; [exact Hfit|].
      exists (Base64.encode_groups (map Byte.to_N B)).
      split; [now apply on_read_loaded|].
      rewrite encode_groups_nil_iff. split.
      * apply map_eq_nil.
      * intros ->. reflexivity.
    + right. split; [exact Hbig|].
      rewrite (@on_read_beyond engine B Hbig).
      destruct (JS.btoa_overflow engine) as [instead|]; [|now left].
      destruct (N.of_nat (List.length B) <=? JS.maxStringLength engine)%N;
        [right; eauto|now left].
  - right. left. split; reflexivity.
  - left. split; reflexivity.
Qed.

Section SizeCeiling.

Import JS.
Open Scope N_scope.

Lemma byteLength_of_length (s : string) (n : N) :
  JS.length s = n ->
  (Client.gt (Client.byteLength s) Client.limit = true
   <-> 4 * 524288000 < n * 3).
Proof.
  intros <-. rewrite gt_true.
  unfold Client.byteLength, Client.limit, Qlt, Qdiv, Qmult, Qinv, inject_Z.
  cbn [Qnum Qden]. lia.
Qed.

Lemma encode_groups_js_length (B : list byte) :
  JS.length (Base64.encode_groups (map Byte.to_N B))
  = (N.of_nat (List.length B) + 2) / 3 * 4.
Proof.
  unfold JS.length. rewrite encode_groups_length, length_map. reflexivity.
Qed.

End SizeCeiling.

(** Where the engine can hold the encoded text, the two size ceilings
    do not meet.  The payload of a buffer of [L] bytes implies
    [3 * ceil(L/3)] bytes, so the size check of [transcribeMedia]
    rejects the encoded payload exactly when [L > 524287998]: a file of
    524287999 or 524288000 bytes, which [validateAndSelectFile] admits,
    is encoded and then refused as too large, without a request. *)
Theorem encoded_payload_size_check
        (File : Type) (engine : JS.Engine)
        (reader : File -> Encoder.ReadEvent) (file : File)
        (B : list byte) :
  reader file = Encoder.onload (Some B) ->
  (Base64.encoded_length (N.of_nat (List.length B))
   <= JS.maxStringLength engine)%N ->
  exists base64,
    Encoder.fileToBase64 engine reader file = JS.Resolved base64 /\
    (Client.gt (Client.byteLength base64) Client.limit = true
     <-> (524287998 < N.of_nat (List.length B))%N) /\
    (forall API_KEY remote mimeType includeTimestamps w,
        JS.truthy API_KEY = true ->
        (524287998 < N.of_nat (List.length B))%N ->
        Client.transcribeMedia API_KEY remote base64 mimeType
                               includeTimestamps w
        = (Client.Throw (JS.Error Client.too_large), w)).
Proof.
  intros Hread Hfit.
  exists (Base64.encode_groups (map Byte.to_N B)).
  assert (Hiff :
            Client.gt (Client.byteLength
                         (Base64.encode_groups (map Byte.to_N B)))
                      Client.limit = true
            <-> (524287998 < N.of_nat (List.length B))%N).
  { rewrite (byteLength_of_length _ (encode_groups_js_length B)).
    split; intros H; zify; Z.to_euclidean_division_equations; lia. }
  split; [unfold Encoder.fileToBase64; rewrite Hread;
          now apply on_read_loaded|].
  split; [exact Hiff|].
  intros API_KEY remote mimeType includeTimestamps w Hkey Hbig.
  apply stops_on_large_payload; [exact Hkey|].
  apply gt_true. now apply Hiff.
Qed.

(** A buffer of exactly 500 MiB, which the upload control admits, on an
    engine with room for its base64 text. *)
Lemma encoded_payload_size_check_witness :
  let B := Fixture.zeros 524288000 in
  FileUpload.validateAndSelectFile
    {| Types.name := "full.mp3"; Types.type := "audio/mpeg";
       Types.size := 524288000 |}
  = FileUpload.onFileSelect
      {| Types.name := "full.mp3"; Types.type := "audio/mpeg";
         Types.size := 524288000 |} /\
  N.of_nat (List.length B) = 524288000%N /\
  (Base64.encoded_length (N.of_nat (List.length B))
   <= JS.maxStringLength Fixture.roomy)%N /\
  exists base64,
    Encoder.fileToBase64 Fixture.roomy Sample.loads B = JS.Resolved base64 /\
    Client.gt (Client.byteLength base64) Client.limit = true /\
    Client.run (Client.transcribeMedia (Some "key"%string)
                  (Sample.answering (Some "Hello world"%string))
                  base64 "audio/mpeg" (Some true))
    = (Client.Throw (JS.Error Client.too_large), Client.quiet).
Proof.
  cbv zeta.
  assert (Hfit : (Base64.encoded_length
                    (N.of_nat (List.length (Fixture.zeros 524288000)))
                  <= JS.maxStringLength Fixture.roomy)%N).
  { rewrite zeros_length. vm_compute. discriminate. }
  split; [reflexivity|]. split; [apply zeros_length|]. split; [exact Hfit|].
  destruct (@encoded_payload_size_check (list byte) Fixture.roomy Sample.loads
              (Fixture.zeros 524288000) (Fixture.zeros 524288000)
              eq_refl Hfit)
    as (base64 & Henc & Hiff & Hthrow).
  exists base64. split; [exact Henc|].
  assert (Hbig : (524287998
                  < N.of_nat (List.length (Fixture.zeros 524288000)))%N).
  { rewrite zeros_length. reflexivity. }
  split; [now apply Hiff|].
  apply Hthrow; [reflexivity|exact Hbig].
Defined.

(** ** The upload control *)

Section Upload.

Import JS Types FileUpload.
Open Scope string_scope.

(** A type that starts with [audio/] is not a video type. *)
Lemma audio_is_not_video (t : string) :
  startsWith t "audio/" = true ->
  startsWith t "video" = false /\ String.eqb t "video/mp4" = false.
Proof.
  unfold startsWith. destruct t as [|c t]; [discriminate|].
  cbn [String.prefix]. destruct (ascii_dec "a" c) as [<-|]; [|discriminate].
  intros _. split; reflexivity.
Qed.

End Upload.

(** [validateAndSelectFile] hands a file to [onFileSelect] exactly when
    its type starts with [audio/] or is [video/mp4] and its size is at
    most 500 MiB, and then it is the very file it was given.  A file of
    another type gets the type error whatever its size. *)
Theorem validateAndSelectFile_hands_over (file : Types.File) :
  (FileUpload.validateAndSelectFile file = FileUpload.onFileSelect file
   <-> (JS.startsWith (Types.type file) "audio/" = true \/
        Types.type file = "video/mp4"%string) /\
       (Types.size file <= 500 * 1024 * 1024)%N) /\
  (forall f, FileUpload.validateAndSelectFile file = FileUpload.onFileSelect f
             -> f = file) /\
  (JS.startsWith (Types.type file) "audio/" = false ->
   String.eqb (Types.type file) "video/mp4" = false ->
   FileUpload.validateAndSelectFile file
   = FileUpload.setError "Please upload a valid audio file or MP4 video.").
Proof.
  split; [|split].
  - split.
    + intros H. destruct (validateAndSelectFile_admits file H) as (_ & Hs & Ht).
      split; assumption.
    + intros [Ht Hs]. unfold FileUpload.validateAndSelectFile.
      replace (negb (JS.startsWith (Types.type file) "audio/")
               && negb (String.eqb (Types.type file) "video/mp4"))
        with false.
      * destruct (N.ltb_spec FileUpload.MAX_SIZE (Types.size file)) as [Hlt|_];
          [|reflexivity].
        unfold FileUpload.MAX_SIZE in Hlt. lia.
      * destruct Ht as [-> | ->]; [reflexivity|].
        rewrite String.eqb_refl. now rewrite andb_false_r.
  - intros f H. now destruct (validateAndSelectFile_admits file H).
  - intros Ha Hm. unfold FileUpload.validateAndSelectFile.
    rewrite Ha, Hm. reflexivity.
Qed.

(** On every file the upload control hands over, the page and the
    transcription client agree on the media kind: the type is
    [video/mp4], which is what [isVideoFile] tests, exactly when it
    starts with [video], which is what the instruction text goes by. *)
Theorem admitted_file_kind (file f : Types.File) :
  FileUpload.validateAndSelectFile file = FileUpload.onFileSelect f ->
  JS.startsWith (Types.type f) "video"
  = String.eqb (Types.type f) "video/mp4" /\
  (forall s fd, App.fileData s = Some fd -> Types.file fd = f ->
                Page.isVideoFile s = JS.startsWith (Types.type f) "video") /\
  (forall ts,
      JS.includes (Client.instruction (Types.type f) ts)
                  "Carefully transcribe the following video file."
      = String.eqb (Types.type f) "video/mp4").
Proof.
  intros H. destruct (validateAndSelectFile_admits file H) as (-> & _ & Ht).
  assert (E : JS.startsWith (Types.type file) "video"
              = String.eqb (Types.type file) "video/mp4").
  { destruct Ht as [Ha | ->]; [|reflexivity].
    destruct (audio_is_not_video _ Ha) as [-> ->]. reflexivity. }
  split; [exact E|]. split.
  - intros s fd Hfd Hf. unfold Page.isVideoFile. rewrite Hfd, Hf. now rewrite E.
  - intros ts. rewrite <- E. unfold Client.instruction.
    destruct (JS.startsWith (Types.type file) "video"); destruct ts;
      vm_compute; reflexivity.
Qed.

(** An MP4 video and an audio file. *)
Lemma admitted_file_kind_witness :
  (JS.startsWith (Types.type Sample.clip) "video" = true /\
   JS.includes (Client.instruction (Types.type Sample.clip) true)
               "Carefully transcribe the following video file." = true) /\
  (JS.startsWith (Types.type Sample.song) "video" = false /\
   JS.includes (Client.instruction (Types.type Sample.song) true)
               "Carefully transcribe the following video file." = false).
Proof.
  split.
  - destruct (@admitted_file_kind Sample.clip Sample.clip eq_refl)
      as (E & _ & I).
    split; [exact E | exact (I true)].
  - destruct (@admitted_file_kind Sample.song Sample.song eq_refl)
      as (E & _ & I).
    split; [exact E | exact (I true)].
Defined.

(** ** The transcription client *)

Section ClientFacts.

Import JS Client.
Open Scope string_scope.




End ClientFacts.




(** When the checks pass and the service answers with a text that is
    not empty, [transcribeMedia] returns that text unchanged, after one
    request, and writes nothing to the console. *)
Theorem transcribeMedia_returns_the_answer
        (API_KEY : option string) (remote : Client.Remote)
        (base64Data mimeType : string) (includeTimestamps : option bool)
        (r : Client.Response) (t : string) :
  JS.truthy API_KEY = true -> base64Data <> ""%string ->
  (Client.byteLength base64Data <= Client.limit)%Q ->
  remote (Client.request base64Data mimeType
                         (Client.withDefault includeTimestamps true))
  = Client.Answers r ->
  Client.response_text r = Some t -> t <> ""%string ->
  Client.run (Client.transcribeMedia API_KEY remote base64Data mimeType
                                     includeTimestamps)
  = (Client.Return t,
     {| Client.requests :=
          [Client.request base64Data mimeType
                          (Client.withDefault includeTimestamps true)];
        Client.console := [] |}).
Proof.
  intros Hkey Hdata Hsize Hr Ht Hne.
  destruct t as [|c s]; [contradiction|].
  unfold Client.run.
  now rewrite (@call_answered API_KEY remote base64Data mimeType
                 includeTimestamps Hkey Hdata Hsize Client.quiet r c s Hr Ht).
Qed.

(** The service answers with a transcript. *)
Lemma transcribeMedia_returns_the_answer_witness :
  Client.run (Client.transcribeMedia (Some "key"%string)
                (Sample.answering (Some "Speaker A: hi"%string))
                "QUJD" "video/mp4" None)
  = (Client.Return "Speaker A: hi"%string,
     {| Client.requests := [Client.request "QUJD" "video/mp4" true];
        Client.console := [] |}).
Proof.
  apply (@transcribeMedia_returns_the_answer (Some "key"%string)
           (Sample.answering (Some "Speaker A: hi"%string))
           "QUJD" "video/mp4" None
           {| Client.response_text := Some "Speaker A: hi"%string |}
           "Speaker A: hi"%string
           eq_refl ltac:(discriminate) ltac:(vm_compute; discriminate)
           eq_refl eq_refl ltac:(discriminate)).
Defined.

(** What a call leaves behind.  It sends no request or one, the one
    built from its arguments.  It writes to the console only when it
    throws after that request went out, and then exactly one entry: a
    failed check is not logged, and neither is a call that returns. *)
Theorem transcribeMedia_trace
        (API_KEY : option string) (remote : Client.Remote)
        (base64Data mimeType : string) (includeTimestamps : option bool)
        (w : Client.World) :
  let result :=
    Client.transcribeMedia API_KEY remote base64Data mimeType
                           includeTimestamps w in
  let sent :=
    Client.request base64Data mimeType
                   (Client.withDefault includeTimestamps true) in
  (Client.requests (snd result) = Client.requests w /\
   Client.console (snd result) = Client.console w /\
   exists msg, fst result = Client.Throw (JS.Error msg)) \/
  (Client.requests (snd result) = (Client.requests w ++ [sent])%list /\
   Client.console (snd result) = Client.console w /\
   exists t, fst result = Client.Return t) \/
  (Client.requests (snd result) = (Client.requests w ++ [sent])%list /\
   (exists e, Client.console (snd result) = (Client.console w ++ [e])%list) /\
   exists msg, fst result = Client.Throw (JS.Error msg)).
Proof.
  intros result sent. unfold result.
  destruct (@call_cases API_KEY remote base64Data mimeType includeTimestamps w)
    as [(msg & E & Hin)|(Hkey & Hdata & Hsize)].
  - left. rewrite E. cbn [fst snd]. repeat split; eauto.
  - right.
    destruct (remote sent) as [r|e'] eqn:Hr.
    + destruct (Client.response_text r) as [[|c s]|] eqn:Ht.
      * right.
        rewrite (@call_answered_empty API_KEY remote base64Data mimeType
                   includeTimestamps Hkey Hdata Hsize w r Hr)
          by now rewrite Ht.
        cbn [fst snd Client.requests Client.console]. repeat split; eauto.
      * left.
        rewrite (@call_answered API_KEY remote base64Data mimeType
                   includeTimestamps Hkey Hdata Hsize w r c s Hr Ht).
        cbn [fst snd Client.requests Client.console]. repeat split; eauto.
      * right.
        rewrite (@call_answered_empty API_KEY remote base64Data mimeType
                   includeTimestamps Hkey Hdata Hsize w r Hr)
          by now rewrite Ht.
        cbn [fst snd Client.requests Client.console]. repeat split; eauto.
    + right.
      rewrite (@call_failed API_KEY remote base64Data mimeType
                 includeTimestamps Hkey Hdata Hsize w e' Hr).
      cbn [fst snd Client.requests Client.console]. repeat split; eauto.
Qed.

(** ** The orchestration handlers: what holds after any events *)

Section Invariants.

Import JS Types App.
Open Scope string_scope.

Lemma truthy_or_else (v : option string) (d : string) :
  d <> "" -> truthy (Some (or_else v d)) = true.
Proof.
  intros Hd. destruct v as [[|c s]|]; cbn; try reflexivity;
    destruct d; try contradiction; reflexivity.
Qed.

Lemma step_consistent (s : State) (e : Event) :
  Page.consistent s -> Page.consistent (fst (step s e)).
Proof.
  unfold Page.consistent. intros (Ip & Is & Ie).
  destruct e as [f|f url [b64|err]| |[t|err]| |]; cbn [step fst];
    try unfold handleTranscribe;
    try destruct (fileData s) as [fd|] eqn:Efd;
    try destruct (truthy (Some (base64 fd)));
    repeat split; cbn; rewrite ?Efd; intros;
    try discriminate; eauto;
    try (apply truthy_or_else; discriminate).
Qed.

Lemma run_consistent (es : list Event) (s : State) :
  Page.consistent s -> Page.consistent (fst (run s es)).
Proof.
  revert s. induction es as [|e es IH]; intros s I; [exact I|].
  cbn [run].
  destruct (step s e) as [s1 c1] eqn:E1.
  destruct (run s1 es) as [s2 c2] eqn:E2. cbn [fst].
  specialize (IH s1). rewrite E2 in IH. apply IH.
  pose proof (@step_consistent s e I) as I1. now rewrite E1 in I1.
Qed.

Lemma initial_consistent : Page.consistent initial.
Proof. repeat split; discriminate. Qed.

(** A step issues at most one command; a transcription command comes
    from a click on the transcribe button and carries the payload, the
    type and the flag of the state. *)
Lemma step_commands (s : State) (e : Event) :
  forallb Page.has_payload (snd (step s e)) = true /\
  (List.length (filter is_transcribeMedia (snd (step s e)))
   <= (if Page.is_ClickTranscribe e then 1 else 0))%nat.
Proof.
  destruct e as [f|f url r| |r| |]; cbn; auto.
  unfold handleTranscribe.
  destruct (fileData s) as [fd|]; [|cbn; auto].
  destruct (base64 fd) as [|c b]; cbn; auto.
Qed.

End Invariants.

(** Whatever events arrive and in whatever order, the page renders
    exactly one of its three panels: the upload control, the
    preparation loader, or the selected file.  The loader is never
    shown together with a file, because [isPreparing] is only set with
    the file data cleared. *)
Theorem one_panel_rendered (es : list App.Event) :
  let s := fst (App.run App.initial es) in
  Page.panels s = 1%nat /\
  (App.isPreparing s = true -> App.fileData s = None).
Proof.
  intros s.
  destruct (@run_consistent es App.initial initial_consistent) as (Ip & _).
  fold s in Ip. split; [|exact Ip].
  unfold Page.panels, Page.rendersLoader, Page.rendersFileView,
    App.rendersFileUpload.
  destruct (App.isPreparing s) eqn:Hp.
  - rewrite (Ip eq_refl). reflexivity.
  - destruct (App.fileData s); reflexivity.
Qed.

(** Whatever events arrive and in whatever order: while the status is
    SUCCESS there is a transcription, and while it is ERROR there is an
    error message that is not empty, so the error banner, when it is
    rendered for that status, has a text to show. *)
Theorem status_has_its_data (es : list App.Event) :
  let s := fst (App.run App.initial es) in
  (App.status s = Types.SUCCESS -> exists t, App.transcription s = Some t) /\
  (App.status s = Types.ERROR ->
   JS.truthy (App.errorMsg s) = true /\
   Page.rendersError s = negb (App.isPreparing s)).
Proof.
  intros s.
  destruct (@run_consistent es App.initial initial_consistent)
    as (_ & Is & Ie).
  fold s in Is, Ie. split; [exact Is|].
  intros H. split; [now apply Ie|].
  unfold Page.rendersError. rewrite H. reflexivity.
Qed.

(** A failed transcription, and then a new selection. *)
Lemma status_has_its_data_witness :
  let s := fst (App.run App.initial
                  (Sample.until_processing ++
                   [App.Transcribed (JS.Rejected (JS.Error "fetch failed"))])) in
  App.status s = Types.ERROR /\
  App.errorMsg s = Some "fetch failed"%string /\
  JS.truthy (App.errorMsg s) = true /\
  Page.rendersError s = negb (App.isPreparing s).
Proof.
  cbv zeta. split; [reflexivity|]. split; [reflexivity|].
  apply (proj2 (@status_has_its_data
                  (Sample.until_processing ++
                   [App.Transcribed (JS.Rejected (JS.Error "fetch failed"))]))).
  reflexivity.
Defined.

(** From any state and for any events, the handlers never ask for the
    transcription of an empty payload, and they ask for at most one
    transcription per click on the transcribe button. *)
Theorem transcription_commands (s : App.State) (es : list App.Event) :
  forallb Page.has_payload (snd (App.run s es)) = true /\
  (List.length (filter App.is_transcribeMedia (snd (App.run s es)))
   <= List.length (filter Page.is_ClickTranscribe es))%nat.
Proof.
  revert s. induction es as [|e es IH]; intros s; [cbn; auto|].
  cbn [App.run].
  pose proof (@step_commands s e) as [Hp Hc].
  destruct (App.step s e) as [s1 c1].
  specialize (IH s1). destruct (App.run s1 es) as [s2 c2].
  cbn [fst snd] in *. destruct IH as [IHp IHc].
  rewrite forallb_app, filter_app, length_app, Hp, IHp.
  split; [reflexivity|].
  cbn [filter]. destruct (Page.is_ClickTranscribe e); cbn [List.length]; lia.
Qed.

(** The timestamp choice belongs to the user: only the toggle changes
    it.  After any events the flag is the one of the start state if the
    toggle was used an even number of times, and its negation
    otherwise; selecting a file, transcribing and resetting keep it. *)
Theorem includeTimestamps_follows_the_toggle
        (s : App.State) (es : list App.Event) :
  App.includeTimestamps (fst (App.run s es))
  = if Nat.even (List.length (filter Page.is_ToggleTimestamps es))
    then App.includeTimestamps s
    else negb (App.includeTimestamps s).
Proof.
  revert s. induction es as [|e es IH]; intros s; [reflexivity|].
  cbn [App.run].
  assert (E : App.includeTimestamps (fst (App.step s e))
              = if Page.is_ToggleTimestamps e
                then negb (App.includeTimestamps s)
                else App.includeTimestamps s).
  { destruct e as [f|f url [b|err]| |[t|err]| |]; try reflexivity.
    cbn. unfold App.handleTranscribe.
    destruct (App.fileData s) as [fd|]; [|reflexivity].
    destruct (JS.truthy (Some (Types.base64 fd))); reflexivity. }
  destruct (App.step s e) as [s1 c1]. cbn [fst] in E.
  specialize (IH s1). destruct (App.run s1 es) as [s2 c2]. cbn [fst] in *.
  rewrite IH, E. cbn [filter].
  destruct (Page.is_ToggleTimestamps e); [|reflexivity].
  cbn [List.length]. rewrite Nat.even_succ, <- Nat.negb_even.
  destruct (Nat.even _); cbn; now rewrite ?negb_involutive.
Qed.

(** ** The orchestration handlers, run to their end *)

Section Flows.

Import JS Types App.
Open Scope string_scope.

Variable engine : Engine.
Variable reader : File -> Encoder.ReadEvent.
Variable createObjectURL : File -> string.
Variable API_KEY : option string.
Variable remote : Client.Remote.

Let complete : State -> Event -> State :=
  Flow.complete engine reader createObjectURL API_KEY remote.

(** Selecting a file, up to the end of [handleFileSelect]. *)
Lemma complete_SelectFile (s : State) (f : File) :
  complete s (SelectFile f)
  = handleFileSelect_resume (fst (handleFileSelect s f)) f
                            (createObjectURL f)
                            (Encoder.fileToBase64 engine reader f).
Proof. reflexivity. Qed.


End Flows.



(** [handleFileSelect] on a file that loads and whose base64 text fits
    into a string of the engine: whatever the state before, it ends
    with the status IDLE, nothing preparing, no error and no
    transcription, and with file data that hold the file, its preview
    URL and a payload that decodes to the bytes of the file; the
    selected-file view is rendered and the transcribe button enabled. *)
Theorem handleFileSelect_to_the_end
        (engine : JS.Engine)
        (reader : Types.File -> Encoder.ReadEvent)
        (createObjectURL : Types.File -> string)
        (API_KEY : option string) (remote : Client.Remote)
        (s : App.State) (f : Types.File) (B : list byte) :
  reader f = Encoder.onload (Some B) ->
  (Base64.encoded_length (N.of_nat (List.length B))
   <= JS.maxStringLength engine)%N ->
  let s' :=
    Flow.complete engine reader createObjectURL API_KEY remote s
                  (App.SelectFile f) in
  exists base64,
    App.fileData s'
    = Some {| Types.file := f; Types.previewUrl := createObjectURL f;
              Types.base64 := base64 |} /\
    Base64.decode base64 = Some B /\
    App.status s' = Types.IDLE /\ App.isPreparing s' = false /\
    App.errorMsg s' = None /\ App.transcription s' = None /\
    App.includeTimestamps s' = App.includeTimestamps s /\
    Page.rendersFileView s' = true /\
    App.offered s' App.ClickTranscribe = true.
Proof.
  intros Hread Hfit s'.
  exists (Base64.encode_groups (map Byte.to_N B)).
  assert (E : s' = App.handleFileSelect_resume
                     (fst (App.handleFileSelect s f)) f (createObjectURL f)
                     (JS.Resolved (Base64.encode_groups (map Byte.to_N B)))).
  { unfold s'. rewrite complete_SelectFile.
    unfold Encoder.fileToBase64.
    rewrite Hread, (@on_read_loaded engine B Hfit). reflexivity. }
  rewrite E. cbn.
  split; [reflexivity|]. split; [|repeat split; reflexivity].
  unfold Base64.decode. rewrite (decode_encode_groups (to_N_octet B)).
  cbn [Base64.bind]. apply octets_to_N.
Qed.

(** A file of three bytes is selected after an earlier transcription. *)
Lemma handleFileSelect_to_the_end_witness :
  let s := fst (App.run App.initial
                  (Sample.until_processing ++
                   [App.Transcribed (JS.Resolved "Hello world"%string);
                    App.ClickReset])) in
  let s' := Flow.complete JS.Chromium (Fixture.holding [x4d; x61; x6e]%byte)
              (Fixture.handle "blob:2") None (Sample.answering None)
              s (App.SelectFile Sample.clip) in
  exists base64,
    App.fileData s'
    = Some {| Types.file := Sample.clip; Types.previewUrl := "blob:2";
              Types.base64 := base64 |} /\
    Base64.decode base64 = Some [x4d; x61; x6e]%byte /\
    App.status s' = Types.IDLE /\ App.isPreparing s' = false /\
    App.errorMsg s' = None /\ App.transcription s' = None /\
    App.includeTimestamps s' = App.includeTimestamps s /\
    Page.rendersFileView s' = true /\
    App.offered s' App.ClickTranscribe = true.
Proof.
  apply (@handleFileSelect_to_the_end
           JS.Chromium (Fixture.holding [x4d; x61; x6e]%byte)
           (Fixture.handle "blob:2") None (Sample.answering None)
           _ Sample.clip [x4d; x61; x6e]%byte eq_refl
           ltac:(vm_compute; discriminate)).
Defined.

(** [handleFileSelect] on a file that cannot be read: it ends with the
    status IDLE and nothing preparing, without file data, with the
    message of the encoder as error message; the error banner and the
    upload control are rendered, so another file can be selected. *)
Theorem handleFileSelect_read_failure
        (engine : JS.Engine)
        (reader : Types.File -> Encoder.ReadEvent)
        (createObjectURL : Types.File -> string)
        (API_KEY : option string) (remote : Client.Remote)
        (s : App.State) (f : Types.File) :
  reader f = Encoder.onerror \/ reader f = Encoder.onload None ->
  let s' :=
    Flow.complete engine reader createObjectURL API_KEY remote s (App.SelectFile f) in
  App.status s' = Types.IDLE /\ App.isPreparing s' = false /\
  App.fileData s' = None /\ App.transcription s' = None /\
  (reader f = Encoder.onerror -> App.errorMsg s' = Some Encoder.read_error) /\
  (reader f = Encoder.onload None ->
   App.errorMsg s' = Some Encoder.read_failed) /\
  Page.rendersError s' = true /\
  App.rendersFileUpload s' = true /\
  Page.panels s' = 1%nat.
Proof.
  intros Hread s'. unfold s'. rewrite complete_SelectFile.
  unfold Encoder.fileToBase64.
  destruct Hread as [-> | ->]; cbn; repeat split;
    try reflexivity; discriminate.
Qed.

(** A file that is locked. *)
Lemma handleFileSelect_read_failure_witness :
  let s' := Flow.complete JS.Chromium Fixture.unreadable (Fixture.handle "blob:3")
              None (Sample.answering None) App.initial
              (App.SelectFile Sample.song) in
  App.status s' = Types.IDLE /\ App.isPreparing s' = false /\
  App.fileData s' = None /\ App.transcription s' = None /\
  App.errorMsg s' = Some Encoder.read_error /\
  Page.rendersError s' = true /\
  App.rendersFileUpload s' = true /\
  Page.panels s' = 1%nat.
Proof.
  cbv zeta.
  destruct (@handleFileSelect_read_failure JS.Chromium Fixture.unreadable
              (Fixture.handle "blob:3") None (Sample.answering None)
              App.initial Sample.song (or_introl eq_refl))
    as (H1 & H2 & H3 & H4 & H5 & _ & H7 & H8 & H9).
  repeat split; solve [assumption | exact (H5 eq_refl)].
Defined.

(** An empty file can be selected but not transcribed.  It is encoded
    to the empty payload without an error, and the transcribe button is
    enabled; but [handleTranscribe] then takes the file data as not
    ready: it sets its own error message, leaves the status as it is and
    starts no transcription, so no request is sent. *)
Theorem empty_file_is_not_transcribed
        (engine : JS.Engine)
        (reader : Types.File -> Encoder.ReadEvent)
        (createObjectURL : Types.File -> string)
        (API_KEY : option string) (remote : Client.Remote)
        (s : App.State) (f : Types.File) :
  reader f = Encoder.onload (Some []) ->
  let s1 :=
    Flow.complete engine reader createObjectURL API_KEY remote s (App.SelectFile f) in
  let s2 :=
    Flow.complete engine reader createObjectURL API_KEY remote s1
                  App.ClickTranscribe in
  App.fileData s1
  = Some {| Types.file := f; Types.previewUrl := createObjectURL f;
            Types.base64 := EmptyString |} /\
  App.errorMsg s1 = None /\
  App.offered s1 App.ClickTranscribe = true /\
  snd (App.step s1 App.ClickTranscribe) = [] /\
  App.status s2 = Types.IDLE /\
  App.errorMsg s2
  = Some "File data is not ready. Please try re-selecting the file."%string /\
  App.transcription s2 = None.
Proof.
  intros Hread s1 s2.
  assert (E1 : s1 = {| App.status := Types.IDLE; App.isPreparing := false;
                       App.fileData :=
                         Some {| Types.file := f;
                                 Types.previewUrl := createObjectURL f;
                                 Types.base64 := EmptyString |};
                       App.transcription := None; App.errorMsg := None;
                       App.includeTimestamps := App.includeTimestamps s |}).
  { unfold s1. rewrite complete_SelectFile.
    unfold Encoder.fileToBase64.
    rewrite Hread, (@on_read_loaded engine [] (N.le_0_l _)). reflexivity. }
  unfold s2. clearbody s1. subst s1. repeat split; reflexivity.
Qed.

(** An empty audio file, which the upload control admits. *)
Lemma empty_file_is_not_transcribed_witness :
  let f := Fixture.silence in
  let s1 := Flow.complete JS.Chromium (Fixture.holding []) (Fixture.handle "blob:4")
              (Some "key"%string) (Sample.answering (Some "Hello world"%string))
              App.initial (App.SelectFile f) in
  let s2 := Flow.complete JS.Chromium (Fixture.holding []) (Fixture.handle "blob:4")
              (Some "key"%string) (Sample.answering (Some "Hello world"%string))
              s1 App.ClickTranscribe in
  FileUpload.validateAndSelectFile f = FileUpload.onFileSelect f /\
  App.fileData s1
  = Some {| Types.file := f; Types.previewUrl := "blob:4";
            Types.base64 := EmptyString |} /\
  App.errorMsg s1 = None /\
  App.offered s1 App.ClickTranscribe = true /\
  snd (App.step s1 App.ClickTranscribe) = [] /\
  App.status s2 = Types.IDLE /\
  App.errorMsg s2
  = Some "File data is not ready. Please try re-selecting the file."%string /\
  App.transcription s2 = None.
Proof.
  cbv zeta. split; [reflexivity|].
  apply (@empty_file_is_not_transcribed JS.Chromium (Fixture.holding [])
           (Fixture.handle "blob:4") (Some "key"%string)
           (Sample.answering (Some "Hello world"%string)) App.initial
           Fixture.silence eq_refl).
Defined.

(** On Chromium a file of more than 402653166 bytes and at most 500 MiB
    can be selected but not transcribed.  [handleFileSelect] ends
    without an error, with file data whose payload is the empty string;
    the transcribe button is enabled, but [handleTranscribe] takes the
    file data as not ready: it sets its own error message and starts no
    transcription. *)
Theorem large_file_is_not_transcribed
        (reader : Types.File -> Encoder.ReadEvent)
        (createObjectURL : Types.File -> string)
        (API_KEY : option string) (remote : Client.Remote)
        (s : App.State) (f : Types.File) (B : list byte) :
  reader f = Encoder.onload (Some B) ->
  (402653166 < N.of_nat (List.length B))%N ->
  (N.of_nat (List.length B) <= 500 * 1024 * 1024)%N ->
  let s1 :=
    Flow.complete JS.Chromium reader createObjectURL API_KEY remote s
                  (App.SelectFile f) in
  let s2 :=
    Flow.complete JS.Chromium reader createObjectURL API_KEY remote s1
                  App.ClickTranscribe in
  App.fileData s1
  = Some {| Types.file := f; Types.previewUrl := createObjectURL f;
            Types.base64 := EmptyString |} /\
  App.errorMsg s1 = None /\
  App.offered s1 App.ClickTranscribe = true /\
  snd (App.step s1 App.ClickTranscribe) = [] /\
  App.status s2 = Types.IDLE /\
  App.errorMsg s2
  = Some "File data is not ready. Please try re-selecting the file."%string /\
  App.transcription s2 = None.
Proof.
  intros Hread Hbig Hsize s1 s2.
  assert (E1 : s1 = {| App.status := Types.IDLE; App.isPreparing := false;
                       App.fileData :=
                         Some {| Types.file := f;
                                 Types.previewUrl := createObjectURL f;
                                 Types.base64 := EmptyString |};
                       App.transcription := None; App.errorMsg := None;
                       App.includeTimestamps := App.includeTimestamps s |}).
  { unfold s1. rewrite complete_SelectFile.
    unfold Encoder.fileToBase64.
    rewrite Hread, (on_read_beyond_Chromium B Hbig Hsize). reflexivity. }
  unfold s2. clearbody s1. subst s1. repeat split; reflexivity.
Qed.

(** A file of exactly 500 MiB. *)
Lemma large_file_is_not_transcribed_witness :
  FileUpload.validateAndSelectFile Fixture.full
  = FileUpload.onFileSelect Fixture.full /\
  let s1 := Flow.complete JS.Chromium
              (Fixture.holding (Fixture.zeros 524288000))
              (Fixture.handle "blob:5") (Some "key"%string)
              (Sample.answering (Some "Hello world"%string))
              App.initial (App.SelectFile Fixture.full) in
  let s2 := Flow.complete JS.Chromium
              (Fixture.holding (Fixture.zeros 524288000))
              (Fixture.handle "blob:5") (Some "key"%string)
              (Sample.answering (Some "Hello world"%string))
              s1 App.ClickTranscribe in
  App.fileData s1
  = Some {| Types.file := Fixture.full; Types.previewUrl := "blob:5";
            Types.base64 := EmptyString |} /\
  App.errorMsg s1 = None /\
  App.offered s1 App.ClickTranscribe = true /\
  snd (App.step s1 App.ClickTranscribe) = [] /\
  App.status s2 = Types.IDLE /\
  App.errorMsg s2
  = Some "File data is not ready. Please try re-selecting the file."%string /\
  App.transcription s2 = None.
Proof.
  split; [reflexivity|].
  apply (@large_file_is_not_transcribed
           (Fixture.holding (Fixture.zeros 524288000))
           (Fixture.handle "blob:5") (Some "key"%string)
           (Sample.answering (Some "Hello world"%string))
           App.initial Fixture.full (Fixture.zeros 524288000) eq_refl).
  - rewrite zeros_length. reflexivity.
  - rewrite zeros_length. vm_compute. discriminate.
Defined.
